(** * Network traffic dashboard: [create_visualization]

    A shallow embedding of [tool-network-dashboard/visualizations.py].

    The function receives a pandas [DataFrame], coerces its [timestamp]
    column in place, and issues a sequence of streamlit calls.  The
    embedding keeps the three things the function touches:

    - the table, as a list of rows, each a finite map from column names to
      cells, together with the list of column labels;
    - the streamlit session, as the list of calls made so far;
    - exceptions, as values of type [exn] that either get caught by the
      [try] block or leave the function.

    Library behaviour (pandas aggregations, plotly figure constructors) is
    written out as executable functions on these data.  Numeric cells are
    integers; the per-protocol mean is computed in binary64, as the library
    does, on the kernel's floating-point numbers. *)

From Stdlib Require Import Floats.
From Stdlib Require Import ZArith QArith Qround Qabs Lqa Sorting.Sorted Sorting.Permutation.
From Stdlib Require Import Strings.String Strings.Ascii DecimalString.
From Stdlib Require Import Structures.OrderedTypeEx.
From stdpp Require Import base decidable option list sorting gmap strings.

#[local] Set Warnings "-clear-no-such-hyp".
Local Open Scope Z_scope.

(** ** Cells, rows and tables *)

(** A cell of the table.  [VNull] stands for every missing marker of
    pandas ([None], [NaN], [NaT]); [VTime ns] is a [Timestamp], held as
    nanoseconds since the epoch as in [datetime64[ns]]. *)
Inductive value : Type :=
| VInt (z : Z)
| VStr (s : string)
| VNull
| VTime (ns : Z).

#[global] Instance value_eq_dec : EqDecision value.
Proof. solve_decision. Defined.

Definition notna (v : value) : bool :=
  match v with VNull => false | _ => true end.

(** A row maps column labels to cells; a label with no entry reads as a
    missing cell. *)
Record DataFrame : Type := mkDataFrame {
  columns : list string;
  rows : list (gmap string value)
}.

Definition cell (c : string) (r : gmap string value) : value :=
  default VNull (r !! c).

(** [df.empty]: true when either axis has length zero. *)
Definition df_empty (df : DataFrame) : bool :=
  bool_decide (columns df = []) || bool_decide (rows df = []).

Inductive exn : Type :=
| KeyError (key : string)
| TypeError.

(** [str(e)]: a [KeyError] prints the repr of its key.  (A [TypeError]
    only arises outside the [try] block, so its text is never shown.) *)
Definition exn_str (e : exn) : string :=
  match e with
  | KeyError k => "'" +:+ k +:+ "'"
  | TypeError => "unsupported operand type"
  end.

(** [df[c]] *)
Definition getitem (df : DataFrame) (c : string) : exn + list value :=
  if decide (c ∈ columns df) then inr (cell c <$> rows df)
  else inl (KeyError c).

(** [df.groupby(..)[c]]: a column of a grouped frame; a label that is not
    there is reported in the library's own words. *)
Definition groupby_getitem (df : DataFrame) (c : string) : exn + list value :=
  if decide (c ∈ columns df) then inr (cell c <$> rows df)
  else inl (KeyError ("Column not found: " +:+ c)).

(** [df[c] = vals], for a column of the frame's own length. *)
Definition setitem (df : DataFrame) (c : string) (vals : list value) : DataFrame :=
  {| columns := if decide (c ∈ columns df) then columns df else columns df ++ [c];
     rows := zip_with (fun r v => <[c := v]> r) (rows df) vals |}.

(** [df.dropna(subset=[c], inplace=True)] *)
Definition dropna (df : DataFrame) (c : string) : DataFrame :=
  {| columns := columns df;
     rows := List.filter (fun r => notna (cell c r)) (rows df) |}.

(** ** Timestamp conversion *)

Definition ns_per_s : Z := 1000000000.
Definition Timestamp_min : Z := -9223372036854775807.
Definition Timestamp_max : Z := 9223372036854775807.

Section Conversion.

(** How the library reads a text cell as a point in time ([None] when it
    cannot).  This depends on the pandas version and is left open. *)
Variable parse_str : string -> option Z.

(** One element of [pd.to_datetime(_, unit='s', errors='coerce')]:
    [None] is [NaT]. *)
Definition to_datetime_s (v : value) : option Z :=
  match v with
  | VInt z =>
      let ns := z * ns_per_s in
      if (Timestamp_min <=? ns) && (ns <=? Timestamp_max) then Some ns else None
  | VStr s => parse_str s
  | VNull => None
  | VTime ns => Some ns
  end.

Definition of_datetime (o : option Z) : value :=
  match o with Some ns => VTime ns | None => VNull end.

Definition to_datetime (col : list value) : list value :=
  (fun v => of_datetime (to_datetime_s v)) <$> col.

End Conversion.

(** [Series.dt.floor('s')] on one element. *)
Definition dt_floor_s (v : value) : value :=
  match v with
  | VTime ns => VTime (ns `div` ns_per_s * ns_per_s)
  | _ => VNull
  end.

(** ** Aggregations *)

(** Ordering of group keys.  Keys of one type compare as in Python; across
    types numbers come first and text last (a table of packet records has
    keys of one type per column, so the order across types is a convention
    of this embedding). *)
Definition value_compare (a b : value) : comparison :=
  match a, b with
  | VInt x, VInt y => Z.compare x y
  | VInt _, _ => Lt
  | VTime _, VInt _ => Gt
  | VTime x, VTime y => Z.compare x y
  | VTime _, _ => Lt
  | VStr _, (VInt _ | VTime _) => Gt
  | VStr x, VStr y => String.compare x y
  | VStr _, VNull => Lt
  | VNull, VNull => Eq
  | VNull, _ => Gt
  end.

Definition value_leb (a b : value) : bool :=
  match value_compare a b with Gt => false | _ => true end.

Definition value_lt (a b : value) : Prop := value_compare a b = Lt.

Section Sorting.
Context {A : Type} (leb : A -> A -> bool).

(** Stable insertion: [x] goes in front of the first element it does not
    exceed. *)
Fixpoint insert_sorted (x : A) (l : list A) : list A :=
  match l with
  | [] => [x]
  | y :: l' => if leb x y then x :: y :: l' else y :: insert_sorted x l'
  end.

Fixpoint isort (l : list A) : list A :=
  match l with
  | [] => []
  | x :: l' => insert_sorted x (isort l')
  end.
End Sorting.

Section Grouping.
Context {A : Type}.

(** Append [x] to the group of [k], opening a new group at the end when
    [k] has not been seen. *)
Fixpoint add_to_group (k : value) (x : A) (gs : list (value * list A))
  : list (value * list A) :=
  match gs with
  | [] => [(k, [x])]
  | (k', xs) :: gs' =>
      if decide (k = k') then (k', xs ++ [x]) :: gs'
      else (k', xs) :: add_to_group k x gs'
  end.

(** Groups in order of first appearance; rows with a missing key belong
    to no group ([dropna=True], the default). *)
Definition factorize (kvs : list (value * A)) : list (value * list A) :=
  fold_left (fun gs kv => if notna kv.1 then add_to_group kv.1 kv.2 gs else gs)
            kvs [].

(** [groupby(keys)]: groups sorted by key ([sort=True], the default). *)
Definition groupby (keys : list value) (vals : list A) : list (value * list A) :=
  isort (fun g h => value_leb g.1 h.1) (factorize (zip keys vals)).
End Grouping.

(** [groupby(keys).size().reset_index(..)] *)
Definition groupby_size (keys : list value) : list (value * nat) :=
  (fun g => (g.1, length g.2)) <$> groupby keys keys.

(** [Series.value_counts().reset_index()]: one line per distinct non-missing
    value, most frequent first.  Values of equal count are kept here in the
    order of their first appearance; the library promises no order among
    them, and no statement below depends on it. *)
Definition value_counts (col : list value) : list (value * nat) :=
  isort (fun a b => (b.2 <=? a.2)%nat)
        ((fun g => (g.1, length g.2)) <$> factorize (zip col col)).

(** The numbers of one group: missing cells are skipped, text cannot be
    averaged. *)
Fixpoint numeric_cells (xs : list value) : exn + list Z :=
  match xs with
  | [] => inr []
  | VInt z :: xs' =>
      match numeric_cells xs' with inr zs => inr (z :: zs) | inl e => inl e end
  | VNull :: xs' => numeric_cells xs'
  | _ :: _ => inl TypeError
  end.

(** An integer as a binary64 number, rounded to the nearest one, ties to
    even (the cast of an [int64] column to [float64]). *)
Definition float_of_Z (z : Z) : float :=
  SF2Prim (binary_normalize prec emax z 0 false).

(** One step of the compensated summation the library's [group_mean]
    runs over the values of a group. *)
Definition kahan_step (acc : float * float) (val : float) : float * float :=
  let y := (val - acc.2)%float in
  let t := (acc.1 + y)%float in
  let c := (t - acc.1 - y)%float in
  (t, if is_nan c then 0%float else c).

(** The binary64 mean: the compensated sum divided by the number of
    values; [NaN] for no value. *)
Definition mean_f64 (vals : list float) : float :=
  match vals with
  | [] => nan
  | _ =>
      ((fold_left kahan_step vals (0, 0)%float).1
       / float_of_Z (Z.of_nat (length vals)))%float
  end.

(** [mean()] of one group, as it is computed for a numeric column: an
    [int64] column, or the [float64] column that integers of that range
    make together with missing values.  The present values are cast to
    [float64] and averaged in row order. *)
Definition mean (xs : list value) : exn + float :=
  match numeric_cells xs with
  | inl e => inl e
  | inr zs => inr (mean_f64 (float_of_Z <$> zs))
  end.

Fixpoint group_means (gs : list (value * list value)) : exn + list (value * float) :=
  match gs with
  | [] => inr []
  | (k, xs) :: gs' =>
      match mean xs with
      | inl e => inl e
      | inr m =>
          match group_means gs' with
          | inl e => inl e
          | inr ms => inr ((k, m) :: ms)
          end
      end
  end.

(** [groupby(keys)[vals].mean().reset_index()] *)
Definition groupby_mean (keys vals : list value) : exn + list (value * float) :=
  group_means (groupby keys vals).

(** ** Formatting *)

(** Nearest integer, ties to the even one. *)
Definition round_half_even (q : Q) : Z :=
  let f := Qfloor q in
  match Qcompare (q - inject_Z f) (1 # 2) with
  | Lt => f
  | Gt => f + 1
  | Eq => if Z.even f then f else f + 1
  end.

Definition string_of_Z (z : Z) : string :=
  NilZero.string_of_int (Z.to_int z).

(** The sign bit of a binary64 number. *)
Definition float_sign (x : float) : bool :=
  match Prim2SF x with
  | S754_zero s | S754_infinity s | S754_finite s _ _ => s
  | S754_nan => false
  end.

(** The exact value of a finite binary64 number. *)
Definition float_value (x : float) : option Q :=
  match Prim2SF x with
  | S754_zero _ => Some 0%Q
  | S754_finite s m e =>
      Some (inject_Z (if s then Z.neg m else Z.pos m) * Qpower 2 e)%Q
  | S754_infinity _ | S754_nan => None
  end.

(** [f"{s:.1f}"]: the exact value of the number, rounded to the nearest
    tenth, ties to even. *)
Definition format_1f (x : float) : string :=
  match float_value x with
  | Some q =>
      let t := Z.abs (round_half_even (q * inject_Z 10)) in
      (if float_sign x then "-" else "") +:+
      string_of_Z (t `div` 10) +:+ "." +:+ string_of_Z (t `mod` 10)
  | None =>
      if is_nan x then "nan" else if float_sign x then "-inf" else "inf"
  end.

(** ** The streamlit session *)

(** A two-column table, as the aggregations leave it after
    [reset_index()] and the renaming of its columns. *)
Record table2 : Type := mkTable2 {
  col1 : string;
  col2 : string;
  body : list (value * nat)
}.

(** The figures, by the data they are built from; colours, markers, line
    shape and layout are left out. *)
Inductive figure : Type :=
| px_pie (data : table2) (names values title : string)
| px_line (data : table2) (x y title : string)
| go_Bar (x : list value) (y : list float) (text : list string).

Inductive st_call : Type :=
| st_markdown (s : string)
| st_warning (s : string)
| st_error (s : string)
| st_subheader (s : string)
| st_plotly_chart (fig : figure)
| st_dataframe (t : table2)
| st_success (s : string).

(** What a call of the function can see and change: the caller's table and
    the session it draws on. *)
Record world : Type := mkWorld {
  frame : DataFrame;
  screen : list st_call
}.

Definition io (A : Type) : Type := world -> (exn + A) * world.

Definition ret {A} (a : A) : io A := fun w => (inr a, w).

Definition bind {A B} (m : io A) (k : A -> io B) : io B :=
  fun w => match m w with
           | (inr a, w') => k a w'
           | (inl e, w') => (inl e, w')
           end.

Definition raise {A} (e : exn) : io A := fun w => (inl e, w).

Definition lift {A} (r : exn + A) : io A :=
  match r with inr a => ret a | inl e => raise e end.

(** [try: m except Exception as e: ...]: the outcome of [m] as a value;
    whatever [m] changed before failing stays changed. *)
Definition try_ {A} (m : io A) : io (exn + A) :=
  fun w => let (r, w') := m w in (inr r, w').

Definition get_frame : io DataFrame := fun w => (inr (frame w), w).

Definition put_frame (df : DataFrame) : io unit :=
  fun w => (inr tt, {| frame := df; screen := screen w |}).

Definition st (c : st_call) : io unit :=
  fun w => (inr tt, {| frame := frame w; screen := screen w ++ [c] |}).

Declare Scope io_scope.
Delimit Scope io_scope with io.
Notation "x <- m ;; k" := (bind m (fun x => k))
  (at level 100, m at next level, right associativity) : io_scope.
Notation "m ;; k" := (bind m (fun _ => k))
  (at level 100, right associativity) : io_scope.

(** ** The renderer *)

Definition msg_title : string := "### 🌐 Real-Time Network Traffic Dashboard".
Definition msg_no_data : string := "⚠️ No data available yet. Waiting for packets...".
Definition msg_failed : string := "Timestamp conversion failed: ".
Definition msg_h1 : string := "1️⃣ Protocol Distribution".
Definition msg_h2 : string := "2️⃣ Packets per Second (Real-Time Trend)".
Definition msg_h3 : string := "3️⃣ Average Packet Size by Protocol".
Definition msg_h4 : string := "4️⃣ Top Source IPs (By Packet Count)".
Definition msg_done : string := "✅ Dashboard updated successfully!".

Section Renderer.
Variable parse_str : string -> option Z.

Local Open Scope io_scope.

(** Lines 17-18, the body of the [try]. *)
Definition convert_timestamps : io unit :=
  df <- get_frame ;;
  ts <- lift (getitem df "timestamp") ;;
  put_frame (setitem df "timestamp" (to_datetime parse_str ts)) ;;
  df <- get_frame ;;
  put_frame (dropna df "timestamp").

(** Lines 24-34. *)
Definition protocol_distribution : io unit :=
  st (st_subheader msg_h1) ;;
  df <- get_frame ;;
  protocol <- lift (getitem df "protocol") ;;
  let protocol_counts := mkTable2 "Protocol" "Count" (value_counts protocol) in
  st (st_plotly_chart
        (px_pie protocol_counts "Protocol" "Count" "Protocol Distribution (Live)")).

(** Lines 37-48. *)
Definition packets_per_second : io unit :=
  st (st_subheader msg_h2) ;;
  df <- get_frame ;;
  ts <- lift (getitem df "timestamp") ;;
  let df_grouped :=
    mkTable2 "timestamp" "Packet Count" (groupby_size (dt_floor_s <$> ts)) in
  st (st_plotly_chart
        (px_line df_grouped "timestamp" "Packet Count" "Packets per Second (Real-Time)")).

(** Lines 51-70. *)
Definition average_packet_size : io unit :=
  st (st_subheader msg_h3) ;;
  df <- get_frame ;;
  protocol <- lift (getitem df "protocol") ;;
  size <- lift (groupby_getitem df "size") ;;
  avg_size <- lift (groupby_mean protocol size) ;;
  st (st_plotly_chart
        (go_Bar (fst <$> avg_size) (snd <$> avg_size)
                ((fun s => format_1f s +:+ " bytes") <$> (snd <$> avg_size)))).

(** Lines 73-77. *)
Definition top_talkers : io unit :=
  df <- get_frame ;;
  if decide ("source" ∈ columns df) then
    st (st_subheader msg_h4) ;;
    source <- lift (getitem df "source") ;;
    let top_sources := mkTable2 "Source IP" "Packet Count" (take 10 (value_counts source)) in
    st (st_dataframe top_sources)
  else ret tt.

Definition create_visualization : io unit :=
  st (st_markdown msg_title) ;;
  df <- get_frame ;;
  if df_empty df then
    st (st_warning msg_no_data)
  else
    r <- try_ convert_timestamps ;;
    match r with
    | inl e => st (st_error (msg_failed +:+ exn_str e))
    | inr _ =>
        protocol_distribution ;;
        packets_per_second ;;
        average_packet_size ;;
        top_talkers ;;
        st (st_success msg_done)
    end.

(** One call on a fresh session. *)
Definition render (df : DataFrame) : (exn + unit) * world :=
  create_visualization {| frame := df; screen := [] |}.

End Renderer.

(** * Facts about the aggregations *)

(** ** Insertion sort *)

Section SortingFacts.
Context {A : Type} (leb : A -> A -> bool).

Lemma insert_sorted_perm x l : insert_sorted leb x l ≡ₚ x :: l.
Proof.
  induction l as [|y l IH]; simpl; [done|].
  destruct (leb x y); [done|].
  rewrite IH. apply Permutation_swap.
Qed.

Lemma isort_perm l : isort leb l ≡ₚ l.
Proof.
  induction l as [|x l IH]; simpl; [done|].
  by rewrite insert_sorted_perm, IH.
Qed.

Lemma isort_length l : length (isort leb l) = length l.
Proof. apply Permutation_length, isort_perm. Qed.

Hypothesis leb_total : forall a b, leb a b = true \/ leb b a = true.
Hypothesis leb_trans : forall a b c, leb a b = true -> leb b c = true -> leb a c = true.

Lemma insert_sorted_sorted x l :
  StronglySorted (fun a b => leb a b = true) l ->
  StronglySorted (fun a b => leb a b = true) (insert_sorted leb x l).
Proof.
  induction 1 as [|y l Hs IH Hy]; simpl.
  - repeat constructor.
  - destruct (leb x y) eqn:Hxy.
    + constructor; [by constructor|].
      constructor; [done|].
      eapply Forall_impl; [exact Hy|]. intros z Hz. by eapply leb_trans.
    + constructor; [done|].
      rewrite insert_sorted_perm. constructor; [|done].
      destruct (leb_total x y); congruence.
Qed.

Lemma isort_sorted l : StronglySorted (fun a b => leb a b = true) (isort leb l).
Proof.
  induction l; simpl; [constructor|]. by apply insert_sorted_sorted.
Qed.
End SortingFacts.

(** ** The order on keys *)

Lemma value_compare_eq a b : value_compare a b = Eq <-> a = b.
Proof.
  destruct a, b; simpl; split; intros H; try discriminate; try done.
  - apply Z.compare_eq in H. by subst.
  - simplify_eq. apply Z.compare_refl.
  - apply String_as_OT.cmp_eq in H. by subst.
  - simplify_eq. by apply String_as_OT.cmp_eq.
  - apply Z.compare_eq in H. by subst.
  - simplify_eq. apply Z.compare_refl.
Qed.

Lemma value_compare_antisym a b : value_compare a b = CompOpp (value_compare b a).
Proof.
  destruct a, b; simpl; try done.
  - apply Z.compare_antisym.
  - apply String_as_OT.cmp_antisym.
  - apply Z.compare_antisym.
Qed.

Lemma value_lt_trans a b c : value_lt a b -> value_lt b c -> value_lt a c.
Proof.
  unfold value_lt. destruct a, b, c; simpl; try done.
  - rewrite !Z.compare_lt_iff. lia.
  - intros H1 H2. apply String_as_OT.cmp_lt.
    apply String_as_OT.cmp_lt in H1, H2. by eapply String_as_OT.lt_trans.
  - rewrite !Z.compare_lt_iff. lia.
Qed.

Lemma value_leb_spec a b : value_leb a b = true <-> value_lt a b \/ a = b.
Proof.
  unfold value_leb, value_lt. rewrite <- value_compare_eq.
  destruct (value_compare a b); intuition congruence.
Qed.

Lemma value_leb_total a b : value_leb a b = true \/ value_leb b a = true.
Proof.
  unfold value_leb. rewrite (value_compare_antisym b a).
  destruct (value_compare a b); simpl; auto.
Qed.

Lemma value_leb_trans a b c :
  value_leb a b = true -> value_leb b c = true -> value_leb a c = true.
Proof.
  rewrite !value_leb_spec. intros [H1| ->] [H2| ->]; eauto using value_lt_trans.
Qed.

(** ** Grouping *)

(** The values filed under key [k], in row order. *)
Definition select {A} (k : value) (kvs : list (value * A)) : list A :=
  (filter (fun kv => kv.1 = k) kvs).*2.

(** The number of cells of a column equal to [k]. *)
Definition count (k : value) (col : list value) : nat :=
  length (filter (fun v => v = k) col).

Definition total {K} (t : list (K * nat)) : nat := sum_list (t.*2).

Section GroupingFacts.
Context {A : Type}.
Implicit Types (gs : list (value * list A)) (kvs : list (value * A)).

Fixpoint group_of (k : value) gs : list A :=
  match gs with
  | [] => []
  | (k', xs) :: gs' => if decide (k = k') then xs else group_of k gs'
  end.

Definition step gs (kv : value * A) :=
  if notna kv.1 then add_to_group kv.1 kv.2 gs else gs.

Lemma group_of_add k k' x gs :
  group_of k (add_to_group k' x gs) =
  if decide (k = k') then group_of k gs ++ [x] else group_of k gs.
Proof.
  induction gs as [|[k0 xs] gs IH]; simpl.
  - by repeat case_decide.
  - destruct (decide (k' = k0)) as [->|Hne]; simpl.
    + by repeat case_decide.
    + rewrite IH. repeat case_decide; congruence.
Qed.

Lemma keys_add k x gs :
  (add_to_group k x gs).*1 = if decide (k ∈ gs.*1) then gs.*1 else gs.*1 ++ [k].
Proof.
  induction gs as [|[k0 xs] gs IH]; csimpl.
  - done.
  - destruct (decide (k = k0)) as [->|Hne]; csimpl.
    + rewrite decide_True; [done|]. by left.
    + rewrite IH. repeat case_decide; try done;
        exfalso; set_solver.
Qed.

Lemma keys_add_NoDup k x gs : NoDup gs.*1 -> NoDup (add_to_group k x gs).*1.
Proof.
  intros H. rewrite keys_add. case_decide; [done|].
  apply NoDup_app. split_and!; [done| |apply NoDup_singleton].
  intros y Hy Hy'. apply list_elem_of_singleton in Hy'. by subst.
Qed.

Lemma sizes_add k x gs :
  sum_list ((fun g => length g.2) <$> add_to_group k x gs) =
  S (sum_list ((fun g => length g.2) <$> gs)).
Proof.
  induction gs as [|[k0 xs] gs IH]; csimpl; [done|].
  case_decide; csimpl.
  - rewrite length_app. csimpl. lia.
  - rewrite IH. lia.
Qed.

Lemma nonempty_add k x gs :
  Forall (fun g => g.2 <> []) gs -> Forall (fun g => g.2 <> []) (add_to_group k x gs).
Proof.
  induction 1 as [|[k0 xs] gs Hg Hgs IH]; csimpl.
  - by repeat constructor.
  - case_decide; constructor; csimpl; try done.
    by destruct xs.
Qed.

Lemma group_of_fold kvs gs k :
  group_of k (fold_left step kvs gs) =
  group_of k gs ++ select k (filter (fun kv => notna kv.1) kvs).
Proof.
  unfold select. revert gs.
  induction kvs as [|[k' x] kvs IH]; intros gs; csimpl.
  { by rewrite app_nil_r. }
  rewrite IH. unfold step. csimpl.
  rewrite filter_cons. csimpl. destruct (notna k') eqn:Hk'; csimpl.
  - rewrite filter_cons; csimpl.
    rewrite group_of_add. destruct (decide (k = k')) as [->|Hne].
    + rewrite decide_True by done. csimpl. by rewrite <- app_assoc.
    + rewrite decide_False by congruence. done.
  - done.
Qed.

Lemma keys_fold_NoDup kvs gs : NoDup gs.*1 -> NoDup (fold_left step kvs gs).*1.
Proof.
  revert gs. induction kvs as [|kv kvs IH]; intros gs H; csimpl; [done|].
  apply IH. unfold step. destruct (notna kv.1); [by apply keys_add_NoDup|done].
Qed.

Lemma keys_fold kvs gs k :
  k ∈ (fold_left step kvs gs).*1 <-> k ∈ gs.*1 \/ (notna k /\ k ∈ kvs.*1).
Proof.
  revert gs. induction kvs as [|[k' x] kvs IH]; intros gs; csimpl.
  { set_solver. }
  rewrite IH. unfold step; csimpl. destruct (notna k') eqn:Hk'.
  - rewrite keys_add. case_decide.
    + split; [set_solver|]. intros [?|[? Hk]]; [by left|].
      apply elem_of_cons in Hk as [->|Hk]; [by left|by right].
    + rewrite elem_of_app, list_elem_of_singleton.
      split; [|set_solver].
      intros [[?| ->]|[? ?]]; [by left| |set_solver].
      right. split; [by rewrite Hk'|by left].
  - split; [set_solver|]. intros [?|[Hn Hk]]; [by left|].
    apply elem_of_cons in Hk as [->|Hk]; [|by right].
    rewrite Hk' in Hn. done.
Qed.

Lemma sizes_fold kvs gs :
  sum_list ((fun g => length g.2) <$> fold_left step kvs gs) =
  (sum_list ((fun g => length g.2) <$> gs) +
   length (filter (fun kv => notna kv.1) kvs))%nat.
Proof.
  revert gs. induction kvs as [|kv kvs IH]; intros gs; csimpl; [lia|].
  rewrite IH, filter_cons. unfold step. destruct (notna kv.1); csimpl.
  - rewrite sizes_add. lia.
  - done.
Qed.

Lemma nonempty_fold kvs gs :
  Forall (fun g => g.2 <> []) gs ->
  Forall (fun g => g.2 <> []) (fold_left step kvs gs).
Proof.
  revert gs. induction kvs as [|kv kvs IH]; intros gs H; csimpl; [done|].
  apply IH. unfold step. destruct (notna kv.1); [by apply nonempty_add|done].
Qed.

Lemma elem_of_groups gs k xs :
  NoDup gs.*1 -> (k, xs) ∈ gs <-> k ∈ gs.*1 /\ group_of k gs = xs.
Proof.
  induction gs as [|[k0 ys] gs IH]; csimpl; intros Hnd.
  { set_solver. }
  apply NoDup_cons in Hnd as [Hk0 Hnd].
  rewrite !elem_of_cons, (IH Hnd). case_decide as Hk.
  - subst k0. split.
    + intros [?|[? ?]]; [simplify_eq; auto|done].
    + intros [_ ->]. by left.
  - split.
    + intros [?|[? ?]]; [simplify_eq|auto].
    + intros [[?|?] ?]; [done|auto].
Qed.

Lemma factorize_NoDup kvs : NoDup (factorize kvs).*1.
Proof. apply keys_fold_NoDup. constructor. Qed.

Lemma factorize_spec kvs k xs :
  (k, xs) ∈ factorize kvs <-> notna k /\ k ∈ kvs.*1 /\ xs = select k kvs.
Proof.
  rewrite elem_of_groups by apply factorize_NoDup.
  unfold factorize. fold step. rewrite keys_fold, group_of_fold. csimpl.
  assert (forall (Hk : notna k),
    select k (filter (fun kv => notna kv.1) kvs) = select k kvs) as Hsel.
  { intros Hk. unfold select. f_equal. rewrite list_filter_filter.
    apply list_filter_iff. intros [k' x]; csimpl. naive_solver. }
  split.
  - intros [[H|[Hk Hin]] <-]; [by apply elem_of_nil in H|].
    by rewrite Hsel.
  - intros (Hk & Hin & ->). split; [by right|by rewrite Hsel].
Qed.

Lemma factorize_sizes kvs :
  sum_list ((fun g => length g.2) <$> factorize kvs) =
  length (filter (fun kv => notna kv.1) kvs).
Proof. unfold factorize. fold step. by rewrite sizes_fold. Qed.

End GroupingFacts.

(** ** Aggregations over the rows of one table *)

Lemma zip_columns {R A B} (f : R -> A) (g : R -> B) (l : list R) :
  zip (f <$> l) (g <$> l) = (fun r => (f r, g r)) <$> l.
Proof. induction l; csimpl; [done|]. by f_equal. Qed.

Lemma select_columns {R A} (f : R -> value) (g : R -> A) (l : list R) k :
  select k (zip (f <$> l) (g <$> l)) = g <$> filter (fun r => f r = k) l.
Proof.
  rewrite zip_columns. unfold select.
  induction l as [|r l IH]; csimpl; [done|].
  rewrite !filter_cons. csimpl. case_decide; csimpl; by rewrite IH.
Qed.

Lemma keys_columns {R A} (f : R -> value) (g : R -> A) (l : list R) :
  (zip (f <$> l) (g <$> l)).*1 = f <$> l.
Proof. apply fst_zip. by rewrite !length_fmap. Qed.

Lemma notna_keys_columns {R A} (f : R -> value) (g : R -> A) (l : list R) :
  length (filter (fun kv => notna kv.1) (zip (f <$> l) (g <$> l))) =
  length (filter (fun r => notna (f r)) l).
Proof.
  rewrite zip_columns.
  induction l as [|r l IH]; csimpl; [done|].
  rewrite !filter_cons. csimpl. case_decide; csimpl; by rewrite IH.
Qed.

Lemma StronglySorted_mono {A} (P Q : A -> A -> Prop) (l : list A) :
  (forall a b, P a b -> Q a b) -> StronglySorted P l -> StronglySorted Q l.
Proof.
  intros HPQ. induction 1 as [|a l Hs IH Ha]; constructor; [done|].
  eapply Forall_impl; [exact Ha|]. intros b. apply HPQ.
Qed.

Lemma strictly_sorted_keys {A} (l : list (value * A)) :
  StronglySorted (fun g h => value_leb g.1 h.1 = true) l ->
  NoDup l.*1 ->
  StronglySorted value_lt l.*1.
Proof.
  induction 1 as [|g l Hs IH Hg]; csimpl; intros Hnd; [constructor|].
  apply NoDup_cons in Hnd as [Hg1 Hnd].
  constructor; [by apply IH|].
  apply Forall_fmap, Forall_forall. intros h Hh. simpl.
  rewrite Forall_forall in Hg. specialize (Hg h Hh).
  apply value_leb_spec in Hg as [?|Heq]; [done|].
  exfalso. apply Hg1. rewrite Heq. apply list_elem_of_fmap. eauto.
Qed.

Section GroupbyFacts.
Context {R A : Type} (f : R -> value) (g : R -> A).
Implicit Types l : list R.

Lemma groupby_spec l k xs :
  (k, xs) ∈ groupby (f <$> l) (g <$> l) <->
  notna k /\ k ∈ f <$> l /\ xs = g <$> filter (fun r => f r = k) l.
Proof.
  unfold groupby. rewrite isort_perm, factorize_spec.
  by rewrite keys_columns, select_columns.
Qed.

Lemma groupby_NoDup l : NoDup (groupby (f <$> l) (g <$> l)).*1.
Proof.
  unfold groupby. rewrite isort_perm. apply factorize_NoDup.
Qed.

Lemma groupby_sorted l : StronglySorted value_lt (groupby (f <$> l) (g <$> l)).*1.
Proof.
  apply strictly_sorted_keys; [|apply groupby_NoDup].
  apply (isort_sorted (fun g h : value * list A => value_leb g.1 h.1)).
  - intros a b. apply value_leb_total.
  - intros a b c. apply value_leb_trans.
Qed.

Lemma groupby_sizes l :
  sum_list ((fun g => length g.2) <$> groupby (f <$> l) (g <$> l)) =
  length (filter (fun r => notna (f r)) l).
Proof.
  unfold groupby. rewrite isort_perm, factorize_sizes.
  apply notna_keys_columns.
Qed.
End GroupbyFacts.

Lemma count_fmap {R} (f : R -> value) (l : list R) k :
  count k (f <$> l) = length (filter (fun r => f r = k) l).
Proof.
  unfold count. induction l as [|r l IH]; csimpl; [done|].
  rewrite !filter_cons. case_decide; csimpl; by rewrite IH.
Qed.

Section CountingFacts.
Context {R : Type} (f : R -> value).
Implicit Types l : list R.

Lemma groupby_size_spec l k n :
  (k, n) ∈ groupby_size (f <$> l) <->
  notna k /\ k ∈ f <$> l /\ n = length (filter (fun r => f r = k) l).
Proof.
  unfold groupby_size. rewrite list_elem_of_fmap. split.
  - intros ([k' xs] & ? & Hin). simplify_eq/=.
    apply (groupby_spec f f) in Hin as (? & ? & ->).
    by rewrite length_fmap.
  - intros (? & ? & ->).
    exists (k, f <$> filter (fun r => f r = k) l). simpl.
    rewrite length_fmap. split; [done|]. by apply groupby_spec.
Qed.

Lemma groupby_size_keys l :
  (groupby_size (f <$> l)).*1 = (groupby (f <$> l) (f <$> l)).*1.
Proof. unfold groupby_size. by rewrite <- list_fmap_compose. Qed.

Lemma groupby_size_sorted l : StronglySorted value_lt (groupby_size (f <$> l)).*1.
Proof. rewrite groupby_size_keys. apply groupby_sorted. Qed.

Lemma groupby_size_total l :
  total (groupby_size (f <$> l)) = length (filter (fun r => notna (f r)) l).
Proof.
  unfold total, groupby_size. rewrite <- list_fmap_compose.
  rewrite <- (groupby_sizes f f l). done.
Qed.

Lemma value_counts_perm l :
  value_counts (f <$> l) ≡ₚ
  (fun g => (g.1, length g.2)) <$> factorize (zip (f <$> l) (f <$> l)).
Proof. apply isort_perm. Qed.

Lemma value_counts_spec l k n :
  (k, n) ∈ value_counts (f <$> l) <->
  notna k /\ k ∈ f <$> l /\ n = length (filter (fun r => f r = k) l).
Proof.
  rewrite value_counts_perm, list_elem_of_fmap. split.
  - intros ([k' xs] & ? & Hin). simplify_eq/=.
    apply factorize_spec in Hin as (? & Hk & ->).
    rewrite keys_columns in Hk. by rewrite select_columns, length_fmap.
  - intros (? & ? & ->).
    exists (k, f <$> filter (fun r => f r = k) l). simpl.
    rewrite length_fmap. split; [done|].
    apply factorize_spec. by rewrite keys_columns, select_columns.
Qed.

Lemma value_counts_NoDup l : NoDup (value_counts (f <$> l)).*1.
Proof.
  rewrite value_counts_perm, <- list_fmap_compose. apply factorize_NoDup.
Qed.

Lemma value_counts_sorted l :
  StronglySorted (fun a b => (b.2 <= a.2)%nat) (value_counts (f <$> l)).
Proof.
  eapply StronglySorted_mono; last first.
  - apply (isort_sorted (fun a b : value * nat => (b.2 <=? a.2)%nat)).
    + intros a b. rewrite !Nat.leb_le. lia.
    + intros a b c. rewrite !Nat.leb_le. lia.
  - intros a b. simpl. by rewrite Nat.leb_le.
Qed.

Lemma value_counts_total l :
  total (value_counts (f <$> l)) = length (filter (fun r => notna (f r)) l).
Proof.
  unfold total. rewrite value_counts_perm, <- list_fmap_compose.
  rewrite <- notna_keys_columns with (g := f), <- factorize_sizes. done.
Qed.
End CountingFacts.

Lemma elem_of_fmap_filter {R} (f : R -> value) (l : list R) k :
  k ∈ f <$> l <-> (0 < length (filter (fun r => f r = k) l))%nat.
Proof.
  rewrite list_elem_of_fmap. split.
  - intros (r & -> & Hr).
    assert (r ∈ filter (fun r' => f r' = f r) l) as Hin
      by by apply list_elem_of_filter.
    destruct (filter _ l); [by apply elem_of_nil in Hin|simpl; lia].
  - intros Hlen. destruct (filter _ l) as [|r l'] eqn:E; [simpl in Hlen; lia|].
    assert (r ∈ filter (fun r' => f r' = k) l) as Hin by (rewrite E; left).
    apply list_elem_of_filter in Hin as [? ?]. eauto.
Qed.

Lemma filter_all {R} (P : R -> Prop) `{!forall r, Decision (P r)} (l : list R) :
  Forall P l -> filter P l = l.
Proof.
  induction 1 as [|r l Hr Hl IH]; [done|].
  by rewrite filter_cons, decide_True, IH.
Qed.

(** A column with one value throughout has one line of counts. *)
Lemma value_counts_single {R} (f : R -> value) (l : list R) p :
  notna p -> l <> [] -> Forall (fun r => f r = p) l ->
  value_counts (f <$> l) = [(p, length l)].
Proof.
  intros Hp Hl Hall.
  assert (forall k n, (k, n) ∈ value_counts (f <$> l) -> k = p /\ n = length l) as Hmem.
  { intros k n (_ & Hk & ->)%value_counts_spec.
    apply list_elem_of_fmap in Hk as (r & -> & Hr).
    rewrite (proj1 (Forall_forall _ _) Hall r Hr).
    split; [done|]. by rewrite filter_all. }
  assert ((p, length l) ∈ value_counts (f <$> l)) as Hin.
  { apply value_counts_spec. split_and!; [done| |by rewrite filter_all].
    destruct l as [|r l]; [done|]. apply Forall_cons in Hall as [<- _]. by left. }
  pose proof (value_counts_NoDup f l) as Hnd.
  destruct (value_counts (f <$> l)) as [|[k n] [|[k' n'] rest]].
  - by apply elem_of_nil in Hin.
  - destruct (Hmem k n) as [-> ->]; [by left|done].
  - destruct (Hmem k n) as [-> ->]; [by left|].
    destruct (Hmem k' n') as [-> ->]; [right; by left|].
    csimpl in Hnd. apply NoDup_cons in Hnd as [Hnd _].
    exfalso. apply Hnd. by left.
Qed.

(** ** The order of the rows does not matter to the per-key counts *)

Lemma value_lt_asym a b : value_lt a b -> value_lt b a -> False.
Proof.
  unfold value_lt. rewrite (value_compare_antisym b a).
  intros H1 H2. rewrite H1 in H2. done.
Qed.

Lemma sorted_by_key {A} (l : list (value * A)) :
  StronglySorted value_lt l.*1 -> StronglySorted (fun a b => value_lt a.1 b.1) l.
Proof.
  induction l as [|a l IH]; csimpl; [constructor|].
  intros [Ha Hl]%StronglySorted_cons. constructor; [by apply IH|].
  rewrite Forall_forall in Ha. apply Forall_forall. intros b Hb.
  apply Ha, list_elem_of_fmap. eauto.
Qed.

Lemma groupby_size_col_spec keys k n :
  (k, n) ∈ groupby_size keys <-> notna k /\ k ∈ keys /\ n = count k keys.
Proof.
  rewrite <- (list_fmap_id keys) at 1.
  rewrite (groupby_size_spec id), list_fmap_id. done.
Qed.

Lemma groupby_size_col_sorted keys : StronglySorted value_lt (groupby_size keys).*1.
Proof. rewrite <- (list_fmap_id keys). apply (groupby_size_sorted id). Qed.

Lemma groupby_size_perm keys keys' :
  keys ≡ₚ keys' -> groupby_size keys = groupby_size keys'.
Proof.
  intros Hperm.
  apply (StronglySorted_unique_strong (fun a b => value_lt a.1 b.1)).
  - intros a b _ _ Hab Hba. destruct (value_lt_asym _ _ Hab Hba).
  - apply sorted_by_key, groupby_size_col_sorted.
  - apply sorted_by_key, groupby_size_col_sorted.
  - assert (forall ks, NoDup (groupby_size ks)) as Hnd.
    { intros ks. apply (NoDup_fmap_1 fst).
      rewrite <- (list_fmap_id ks), (groupby_size_keys id).
      apply groupby_NoDup. }
    apply NoDup_Permutation; [apply Hnd..|].
    intros [k n]. rewrite !groupby_size_col_spec. unfold count.
    by rewrite Hperm.
Qed.

(** ** The most frequent values *)

Section TopFacts.
Context {R : Type} (f : R -> value) (n : nat).
Implicit Types l : list R.

Lemma top_elem_of l x : x ∈ take n (value_counts (f <$> l)) -> x ∈ value_counts (f <$> l).
Proof.
  intros H. rewrite <- (take_drop n (value_counts (f <$> l))).
  apply elem_of_app. by left.
Qed.

Lemma top_sorted l :
  StronglySorted (fun a b => (b.2 <= a.2)%nat) (take n (value_counts (f <$> l))).
Proof.
  eapply StronglySorted_app_1_l. rewrite take_drop. apply value_counts_sorted.
Qed.

Lemma top_NoDup l : NoDup (take n (value_counts (f <$> l))).*1.
Proof.
  pose proof (value_counts_NoDup f l) as H.
  rewrite <- (take_drop n (value_counts (f <$> l))), fmap_app in H.
  by apply NoDup_app in H as (? & _ & _).
Qed.

(** A value that occurs but is not listed: the list is full, and every
    listed value occurs at least as often. *)
Lemma top_cut l k :
  notna k -> k ∈ f <$> l -> k ∉ (take n (value_counts (f <$> l))).*1 ->
  length (take n (value_counts (f <$> l))) = n /\
  forall k' m, (k', m) ∈ take n (value_counts (f <$> l)) ->
               (length (filter (fun r => f r = k) l) <= m)%nat.
Proof.
  intros Hk Hin Hout.
  assert ((k, length (filter (fun r => f r = k) l)) ∈ value_counts (f <$> l)) as Hvc
    by by apply value_counts_spec.
  pose proof (value_counts_sorted f l) as Hs.
  rewrite <- (take_drop n (value_counts (f <$> l))) in Hvc, Hs.
  apply elem_of_app in Hvc as [Hvc|Hvc].
  { exfalso. apply Hout. apply list_elem_of_fmap. by exists (k, length (filter (fun r => f r = k) l)). }
  split.
  - rewrite length_take. apply Nat.min_l.
    destruct (decide (n <= length (value_counts (f <$> l)))%nat); [done|].
    rewrite drop_ge in Hvc by lia. by apply elem_of_nil in Hvc.
  - intros k' m Hin'.
    by apply (StronglySorted_app_1_elem_of _ _ _ _ _ Hs Hin' Hvc).
Qed.

(** The number of lines is the number of distinct values, up to [n]. *)
Lemma top_length l (vals : list value) :
  NoDup vals -> (forall k, k ∈ vals <-> notna k /\ k ∈ f <$> l) ->
  length (take n (value_counts (f <$> l))) = (n `min` length vals)%nat.
Proof.
  intros Hnd Hvals. rewrite length_take. f_equal.
  rewrite <- (length_fmap fst). apply Permutation_length.
  apply NoDup_Permutation; [apply value_counts_NoDup|done|].
  intros k. rewrite Hvals, list_elem_of_fmap. split.
  - intros ([k' m] & -> & (? & ? & _)%value_counts_spec). done.
  - intros [? ?]. exists (k, length (filter (fun r => f r = k) l)).
    split; [done|]. by apply value_counts_spec.
Qed.
End TopFacts.

(** Every row has a value or misses it. *)
Lemma notna_or_null {R} (f : R -> value) (l : list R) :
  (length (filter (fun r => notna (f r)) l)
   + length (filter (fun r => f r = VNull) l))%nat = length l.
Proof.
  induction l as [|r l IH]; [done|].
  rewrite !filter_cons. destruct (f r) eqn:E; simpl; rewrite <- IH; lia.
Qed.


(** ** Means *)

Definition numeric (v : value) : bool :=
  match v with VInt _ | VNull => true | _ => false end.

Definition ints_of (xs : list value) : list Z :=
  omap (fun v => match v with VInt z => Some z | _ => None end) xs.

(** The binary64 mean of a list of integers; [NaN] for the empty list. *)
Definition average (zs : list Z) : float := mean_f64 (float_of_Z <$> zs).

Lemma numeric_cells_ints xs :
  Forall (fun v => numeric v) xs -> numeric_cells xs = inr (ints_of xs).
Proof.
  induction 1 as [|v xs Hv Hxs IH]; [done|].
  destruct v; try done; csimpl; by rewrite IH.
Qed.

Lemma mean_average xs :
  Forall (fun v => numeric v) xs -> mean xs = inr (average (ints_of xs)).
Proof.
  intros H. unfold mean. by rewrite numeric_cells_ints.
Qed.

Lemma group_means_average (gs : list (value * list value)) :
  Forall (fun g => Forall (fun v => numeric v) g.2) gs ->
  group_means gs = inr ((fun g => (g.1, average (ints_of g.2))) <$> gs).
Proof.
  induction 1 as [|[k xs] gs Hg Hgs IH]; [done|].
  csimpl. rewrite mean_average by done. by rewrite IH.
Qed.

(** The mean of each group, when every cell is a number or missing. *)
Definition group_averages (keys vals : list value) : list (value * float) :=
  (fun grp => (grp.1, average (ints_of grp.2))) <$> groupby keys vals.

Lemma groupby_mean_average {R} (f g : R -> value) (l : list R) :
  Forall (fun r => numeric (g r)) l ->
  groupby_mean (f <$> l) (g <$> l) = inr (group_averages (f <$> l) (g <$> l)).
Proof.
  intros H. apply group_means_average.
  apply Forall_forall. intros [k xs] Hin.
  apply groupby_spec in Hin as (_ & _ & ->). simpl.
  apply Forall_fmap. apply Forall_forall. intros r Hr.
  apply list_elem_of_filter in Hr as [_ Hr].
  rewrite Forall_forall in H. by apply H.
Qed.

Section GroupAverages.
Context {R : Type} (f g : R -> value).
Implicit Types l : list R.

Lemma group_averages_keys l :
  (group_averages (f <$> l) (g <$> l)).*1 = (groupby (f <$> l) (g <$> l)).*1.
Proof. unfold group_averages. by rewrite <- list_fmap_compose. Qed.

Lemma group_averages_sorted l :
  StronglySorted value_lt (group_averages (f <$> l) (g <$> l)).*1.
Proof. rewrite group_averages_keys. apply groupby_sorted. Qed.


(** The groups do not depend on the order of the rows. *)
Lemma group_averages_keys_perm l l' :
  l ≡ₚ l' ->
  (group_averages (f <$> l) (g <$> l)).*1 = (group_averages (f <$> l') (g <$> l')).*1.
Proof.
  intros Hperm.
  apply (StronglySorted_unique_strong value_lt).
  - intros a b _ _ Hab Hba. destruct (value_lt_asym _ _ Hab Hba).
  - apply group_averages_sorted.
  - apply group_averages_sorted.
  - rewrite !group_averages_keys.
    apply NoDup_Permutation; [apply groupby_NoDup..|].
    intros k. rewrite !list_elem_of_fmap. split.
    + intros ([k' xs] & -> & (Hk & Hin & Hxs)%groupby_spec).
      exists (k', g <$> filter (fun r => f r = k') l'). split; [done|].
      apply groupby_spec. split_and!; [done| |done]. by rewrite <- Hperm.
    + intros ([k' xs] & -> & (Hk & Hin & Hxs)%groupby_spec).
      exists (k', g <$> filter (fun r => f r = k') l). split; [done|].
      apply groupby_spec. split_and!; [done| |done]. by rewrite Hperm.
Qed.
End GroupAverages.

(** ** One decimal place *)



(** The mean and its label are those of binary64 numbers: the label of
    3/20 is that of the nearest double, which lies below it; and an
    integer above 2^53 is rounded when it is cast. *)
Example binary64_means :
  format_1f (average (replicate 17 0 ++ [1; 1; 1])) = "0.1"
  /\ format_1f (average (replicate 19 60 ++ [63])) = "60.1"
  /\ format_1f (average [10; 20]) = "15.0"
  /\ average [2 ^ 53 + 1] = float_of_Z (2 ^ 53)
  /\ format_1f (average []) = "nan".
Proof. vm_compute. done. Qed.

(** The compensated sum is taken in row order, and the order can show in
    the result. *)
Example mean_follows_row_order :
  average [2 ^ 62; 1; - 2 ^ 62; 1] = 0.25%float
  /\ average [2 ^ 62; - 2 ^ 62; 1; 1] = 0.5%float.
Proof. vm_compute. done. Qed.

(** ** Reading the screen *)

Definition is_error (c : st_call) : bool :=
  match c with st_error _ => true | _ => false end.

Definition is_success (c : st_call) : bool :=
  match c with st_success _ => true | _ => false end.

Definition is_widget (c : st_call) : bool :=
  match c with st_plotly_chart _ | st_dataframe _ => true | _ => false end.

(** The error path: an error is reported and no widget is drawn. *)
Definition error_path (scr : list st_call) : bool :=
  existsb is_error scr && negb (existsb is_widget scr).

Definition pie_tables (scr : list st_call) : list table2 :=
  omap (fun c => match c with
                 | st_plotly_chart (px_pie t _ _ _) => Some t
                 | _ => None
                 end) scr.

Definition line_tables (scr : list st_call) : list table2 :=
  omap (fun c => match c with
                 | st_plotly_chart (px_line t _ _ _) => Some t
                 | _ => None
                 end) scr.

Definition bars (scr : list st_call) : list (list value * list float * list string) :=
  omap (fun c => match c with
                 | st_plotly_chart (go_Bar x y text) => Some (x, y, text)
                 | _ => None
                 end) scr.

Definition dataframes (scr : list st_call) : list table2 :=
  omap (fun c => match c with st_dataframe t => Some t | _ => None end) scr.

Lemma pie_tables_app scr scr' : pie_tables (scr ++ scr') = pie_tables scr ++ pie_tables scr'.
Proof. apply omap_app. Qed.

Lemma line_tables_app scr scr' :
  line_tables (scr ++ scr') = line_tables scr ++ line_tables scr'.
Proof. apply omap_app. Qed.

(** * The renderer, path by path *)

(** Run the calls whose outcome the hypotheses decide. *)
Ltac io_steps :=
  repeat (simpl;
          first [ rewrite decide_True by done
                | rewrite decide_False by done ]);
  simpl.

Section RendererFacts.
Variable parse_str : string -> option Z.

(** What becomes of one row in the conversion step: it is dropped, or it
    stays with its [timestamp] cell replaced by the converted value. *)
Definition keep (r : gmap string value) : option (gmap string value) :=
  (fun ns => <["timestamp" := VTime ns]> r) <$>
    to_datetime_s parse_str (cell "timestamp" r).

Definition surviving (df : DataFrame) : list (gmap string value) :=
  omap keep (rows df).

Definition coerced (df : DataFrame) : DataFrame :=
  {| columns := columns df; rows := surviving df |}.

(** The calls of the four widgets, as functions of the columns they are
    drawn from. *)
Definition protocol_chart (protocol : list value) : st_call :=
  st_plotly_chart
    (px_pie (mkTable2 "Protocol" "Count" (value_counts protocol))
            "Protocol" "Count" "Protocol Distribution (Live)").

Definition timeline_chart (seconds : list value) : st_call :=
  st_plotly_chart
    (px_line (mkTable2 "timestamp" "Packet Count" (groupby_size seconds))
             "timestamp" "Packet Count" "Packets per Second (Real-Time)").

Definition size_chart (avg_size : list (value * float)) : st_call :=
  st_plotly_chart
    (go_Bar (avg_size.*1) (avg_size.*2)
            ((fun s => format_1f s +:+ " bytes") <$> avg_size.*2)).

Definition top_sources_table (source : list value) : st_call :=
  st_dataframe
    (mkTable2 "Source IP" "Packet Count" (take 10 (value_counts source))).

Lemma cell_insert c v (r : gmap string value) : cell c (<[c := v]> r) = v.
Proof. unfold cell. by rewrite lookup_insert_eq. Qed.

Lemma cell_insert_ne c c' v (r : gmap string value) :
  c <> c' -> cell c' (<[c := v]> r) = cell c' r.
Proof. intros. unfold cell. by rewrite lookup_insert_ne. Qed.

Lemma convert_rows (rs : list (gmap string value)) :
  List.filter (fun r => notna (cell "timestamp" r))
    (zip_with (fun r v => <["timestamp" := v]> r) rs
              (to_datetime parse_str (cell "timestamp" <$> rs)))
  = omap keep rs.
Proof.
  induction rs as [|r rs IH]; csimpl; [done|].
  rewrite cell_insert, IH. unfold keep.
  by destruct (to_datetime_s parse_str (cell "timestamp" r)).
Qed.

Lemma convert_frame df :
  "timestamp" ∈ columns df ->
  dropna (setitem df "timestamp"
            (to_datetime parse_str (cell "timestamp" <$> rows df))) "timestamp"
  = coerced df.
Proof.
  intros H. unfold dropna, setitem, coerced, surviving; simpl.
  by rewrite decide_True, convert_rows.
Qed.

Lemma convert_timestamps_ok df scr :
  "timestamp" ∈ columns df ->
  convert_timestamps parse_str (mkWorld df scr) = (inr tt, mkWorld (coerced df) scr).
Proof.
  intros H. unfold convert_timestamps, bind, get_frame, put_frame, lift, getitem.
  simpl. rewrite decide_True by done. simpl. by rewrite convert_frame.
Qed.

Lemma convert_timestamps_raises df scr :
  "timestamp" ∉ columns df ->
  convert_timestamps parse_str (mkWorld df scr)
  = (inl (KeyError "timestamp"), mkWorld df scr).
Proof.
  intros H. unfold convert_timestamps, bind, get_frame, put_frame, lift, getitem.
  simpl. by rewrite decide_False.
Qed.

(** Whatever the conversion step raises is a missing [timestamp] column,
    and the table is then as it was. *)
Lemma convert_timestamps_inv df scr e w :
  convert_timestamps parse_str (mkWorld df scr) = (inl e, w) ->
  ("timestamp" ∉ columns df) /\ e = KeyError "timestamp" /\ w = mkWorld df scr.
Proof.
  destruct (decide ("timestamp" ∈ columns df)) as [H|H].
  - rewrite convert_timestamps_ok by done. discriminate.
  - rewrite convert_timestamps_raises by done. intros; by simplify_eq.
Qed.

Lemma render_empty df :
  df_empty df = true ->
  render parse_str df = (inr tt, mkWorld df [st_markdown msg_title; st_warning msg_no_data]).
Proof.
  intros H. unfold render, create_visualization, bind, st, get_frame. simpl.
  by rewrite H.
Qed.

Lemma render_conversion_failed df e w :
  df_empty df = false ->
  convert_timestamps parse_str (mkWorld df [st_markdown msg_title]) = (inl e, w) ->
  render parse_str df =
  (inr tt, mkWorld (frame w)
             [st_markdown msg_title; st_error (msg_failed +:+ exn_str e)]).
Proof.
  intros H He.
  apply convert_timestamps_inv in He as He'. destruct He' as (_ & _ & ->).
  unfold render, create_visualization, bind, st, get_frame, try_. simpl.
  rewrite H. simpl. by rewrite He.
Qed.

Lemma render_widgets df avg_size :
  df_empty df = false ->
  "timestamp" ∈ columns df ->
  "protocol" ∈ columns df ->
  "size" ∈ columns df ->
  groupby_mean (cell "protocol" <$> surviving df) (cell "size" <$> surviving df)
    = inr avg_size ->
  render parse_str df =
  (inr tt,
   mkWorld (coerced df)
     ([st_markdown msg_title;
       st_subheader msg_h1; protocol_chart (cell "protocol" <$> surviving df);
       st_subheader msg_h2;
       timeline_chart (dt_floor_s <$> (cell "timestamp" <$> surviving df));
       st_subheader msg_h3; size_chart avg_size]
      ++ (if decide ("source" ∈ columns df)
          then [st_subheader msg_h4; top_sources_table (cell "source" <$> surviving df)]
          else [])
      ++ [st_success msg_done])).
Proof.
  intros He Hts Hp Hs Havg.
  unfold render, create_visualization, bind, st, get_frame, try_. simpl.
  rewrite He. simpl. rewrite convert_timestamps_ok by done.
  unfold protocol_distribution, packets_per_second, average_packet_size,
    top_talkers, bind, st, get_frame, lift, getitem, groupby_getitem, ret.
  simpl. rewrite !decide_True by done. simpl.
  rewrite Havg. simpl.
  destruct (decide ("source" ∈ columns df)); simpl; done.
Qed.

(** The first two charts are on the screen as soon as the [timestamp] and
    [protocol] columns exist, whatever happens afterwards. *)
Lemma render_charts df :
  df_empty df = false ->
  "timestamp" ∈ columns df ->
  "protocol" ∈ columns df ->
  exists r rest,
    render parse_str df =
    (r, mkWorld (coerced df)
          ([st_markdown msg_title;
            st_subheader msg_h1; protocol_chart (cell "protocol" <$> surviving df);
            st_subheader msg_h2;
            timeline_chart (dt_floor_s <$> (cell "timestamp" <$> surviving df));
            st_subheader msg_h3] ++ rest))
    /\ pie_tables rest = [] /\ line_tables rest = [].
Proof.
  intros He Hts Hp.
  unfold render, create_visualization, bind, st, get_frame, try_. simpl.
  rewrite He. simpl. rewrite convert_timestamps_ok by done.
  unfold protocol_distribution, packets_per_second, average_packet_size,
    top_talkers, bind, st, get_frame, lift, getitem, groupby_getitem, ret.
  simpl. rewrite !decide_True by done. simpl.
  destruct (decide ("size" ∈ columns df)); simpl;
    [|by eexists _, []].
  destruct (groupby_mean _ _); simpl; [by eexists _, []|].
  destruct (decide ("source" ∈ columns df)); simpl.
  - by eexists _, [_; _; _; _].
  - by eexists _, [_; _].
Qed.

(** A call leaves the caller's table as it was, or converted. *)
Lemma render_frame df :
  frame (render parse_str df).2 = df \/
  ("timestamp" ∈ columns df /\ frame (render parse_str df).2 = coerced df).
Proof.
  destruct (df_empty df) eqn:He.
  { left. by rewrite render_empty. }
  destruct (decide ("timestamp" ∈ columns df)) as [Hts|Hts]; last first.
  { left.
    by rewrite (render_conversion_failed df _ _ He
                  (convert_timestamps_raises df _ Hts)). }
  right. split; [done|].
  unfold render, create_visualization, bind, st, get_frame, try_. simpl.
  rewrite He. simpl. rewrite convert_timestamps_ok by done.
  unfold protocol_distribution, packets_per_second, average_packet_size,
    top_talkers, bind, st, get_frame, lift, getitem, groupby_getitem, ret.
  destruct (decide ("protocol" ∈ columns df));
    [|by io_steps].
  destruct (decide ("size" ∈ columns df));
    [|by io_steps].
  io_steps.
  destruct (groupby_mean _ _); simpl; [done|].
  destruct (decide ("source" ∈ columns df)); by io_steps.
Qed.

(** Once the conversion has run the table is the converted one. *)
Lemma render_frame_converted df :
  df_empty df = false ->
  "timestamp" ∈ columns df ->
  frame (render parse_str df).2 = coerced df.
Proof.
  intros He Hts.
  destruct (render_frame df) as [Hsame|[_ H]]; [|done].
  unfold render, create_visualization, bind, st, get_frame, try_ in *.
  simpl in *. rewrite He in *. simpl in *.
  rewrite convert_timestamps_ok in * by done.
  unfold protocol_distribution, packets_per_second, average_packet_size,
    top_talkers, bind, st, get_frame, lift, getitem, groupby_getitem, ret in *.
  destruct (decide ("protocol" ∈ columns df));
    [|by io_steps].
  destruct (decide ("size" ∈ columns df));
    [|by io_steps].
  io_steps.
  destruct (groupby_mean _ _); simpl; [done|].
  destruct (decide ("source" ∈ columns df)); by io_steps.
Qed.

(** ** Rows that survive the conversion *)

Definition converts (r : gmap string value) : Prop :=
  is_Some (to_datetime_s parse_str (cell "timestamp" r)).

(** The rows of the caller's table whose timestamp converts. *)
Definition retained (df : DataFrame) : list (gmap string value) :=
  filter converts (rows df).

(** The second a retained row falls in, as the line chart keys it. *)
Definition bucket (r : gmap string value) : value :=
  dt_floor_s (of_datetime (to_datetime_s parse_str (cell "timestamp" r))).

Lemma surviving_cells c df :
  c <> "timestamp" -> cell c <$> surviving df = cell c <$> retained df.
Proof.
  intros Hc. unfold surviving, retained, converts.
  induction (rows df) as [|r rs IH]; csimpl; [done|].
  rewrite filter_cons. unfold keep at 1.
  destruct (to_datetime_s parse_str (cell "timestamp" r)) as [ns|] eqn:E; csimpl.
  - rewrite cell_insert_ne by done. by rewrite IH.
  - done.
Qed.

Lemma surviving_buckets df :
  dt_floor_s <$> (cell "timestamp" <$> surviving df) = bucket <$> retained df.
Proof.
  unfold surviving, retained, converts, bucket.
  induction (rows df) as [|r rs IH]; csimpl; [done|].
  rewrite filter_cons. unfold keep at 1.
  destruct (to_datetime_s parse_str (cell "timestamp" r)) as [ns|] eqn:E; csimpl.
  - rewrite cell_insert, E. by rewrite IH.
  - done.
Qed.

Lemma surviving_length df : length (surviving df) = length (retained df).
Proof.
  rewrite <- (length_fmap (cell "protocol") (surviving df)).
  rewrite surviving_cells by done. by rewrite length_fmap.
Qed.

(** Every row is retained or has a timestamp that fails the conversion. *)
Lemma retained_dropped df :
  (length (retained df)
   + length (filter (fun r => to_datetime_s parse_str (cell "timestamp" r) = None)
                    (rows df)))%nat
  = length (rows df).
Proof.
  unfold retained, converts.
  induction (rows df) as [|r rs IH]; [done|].
  rewrite !filter_cons.
  destruct (to_datetime_s parse_str (cell "timestamp" r)) as [ns|] eqn:E.
  - rewrite decide_True by by eexists. rewrite decide_False by done.
    simpl. by rewrite IH.
  - rewrite decide_False by by intros [? ?]. rewrite decide_True by done.
    simpl. rewrite <- IH. lia.
Qed.

Lemma retained_all df :
  Forall converts (rows df) -> retained df = rows df.
Proof.
  unfold retained. induction 1 as [|r rs Hr Hrs IH]; [done|].
  rewrite filter_cons, decide_True by done. by f_equal.
Qed.

Lemma retained_none df :
  Forall (fun r => to_datetime_s parse_str (cell "timestamp" r) = None) (rows df) ->
  retained df = [].
Proof.
  unfold retained, converts. induction 1 as [|r rs Hr Hrs IH]; [done|].
  rewrite filter_cons, decide_False; [done|]. rewrite Hr. by intros [? ?].
Qed.

(** ** A complete pass *)

(** The per-protocol means over the retained rows. *)
Definition avg_sizes (df : DataFrame) : list (value * float) :=
  group_averages (cell "protocol" <$> retained df) (cell "size" <$> retained df).

(** Everything a complete pass puts on the screen. *)
Definition dashboard (df : DataFrame) : list st_call :=
  [st_markdown msg_title;
   st_subheader msg_h1; protocol_chart (cell "protocol" <$> retained df);
   st_subheader msg_h2; timeline_chart (bucket <$> retained df);
   st_subheader msg_h3; size_chart (avg_sizes df)]
  ++ (if decide ("source" ∈ columns df)
      then [st_subheader msg_h4; top_sources_table (cell "source" <$> retained df)]
      else [])
  ++ [st_success msg_done].

Definition numeric_sizes (df : DataFrame) : Prop :=
  Forall (fun r => numeric (cell "size" r)) (retained df).

Lemma render_ok df :
  df_empty df = false ->
  "timestamp" ∈ columns df ->
  "protocol" ∈ columns df ->
  "size" ∈ columns df ->
  numeric_sizes df ->
  render parse_str df = (inr tt, mkWorld (coerced df) (dashboard df)).
Proof.
  intros He Hts Hp Hs Hn.
  rewrite (render_widgets df (avg_sizes df)); try done.
  - unfold dashboard. rewrite surviving_buckets.
    by rewrite !surviving_cells by done.
  - rewrite !surviving_cells by done. by apply groupby_mean_average.
Qed.

Lemma dashboard_quiet df : existsb is_error (dashboard df) = false.
Proof. unfold dashboard. by destruct (decide ("source" ∈ columns df)). Qed.

Lemma dashboard_draws df : existsb is_widget (dashboard df) = true.
Proof. done. Qed.

(** Each surviving row is a retained row with a converted timestamp. *)
Definition converted (r r' : gmap string value) : Prop :=
  exists ns, to_datetime_s parse_str (cell "timestamp" r) = Some ns /\
             r' = <["timestamp" := VTime ns]> r.

Lemma surviving_retained df : Forall2 converted (retained df) (surviving df).
Proof.
  unfold surviving, retained, converts, converted.
  induction (rows df) as [|r rs IH]; csimpl; [constructor|].
  rewrite filter_cons. unfold keep at 1.
  destruct (to_datetime_s parse_str (cell "timestamp" r)) as [ns|] eqn:E; csimpl.
  - constructor; [|done]. eauto.
  - done.
Qed.

Lemma surviving_none df : retained df = [] -> surviving df = [].
Proof.
  intros H. apply length_zero_iff_nil. by rewrite surviving_length, H.
Qed.

(** ** The charts on the screen *)

Lemma charts_on_screen df :
  df_empty df = false ->
  "timestamp" ∈ columns df ->
  "protocol" ∈ columns df ->
  pie_tables (screen (render parse_str df).2) =
    [mkTable2 "Protocol" "Count" (value_counts (cell "protocol" <$> retained df))]
  /\ line_tables (screen (render parse_str df).2) =
    [mkTable2 "timestamp" "Packet Count" (groupby_size (bucket <$> retained df))]
  /\ length (rows (frame (render parse_str df).2)) = length (retained df).
Proof.
  intros He Hts Hp.
  destruct (render_charts df He Hts Hp) as (r & rest & -> & Hpie & Hline).
  cbn [snd screen frame coerced rows].
  rewrite pie_tables_app, line_tables_app, Hpie, Hline.
  rewrite surviving_buckets, surviving_cells, surviving_length by done.
  done.
Qed.

(** The whole second a row falls in, when its timestamp converts. *)
Definition second_of (r : gmap string value) : option Z :=
  (fun ns => ns `div` ns_per_s) <$> to_datetime_s parse_str (cell "timestamp" r).

Lemma bucket_notna r : converts r -> notna (bucket r).
Proof. unfold bucket. by intros [ns ->]. Qed.

Lemma bucket_second r s :
  bucket r = VTime (s * ns_per_s) /\ converts r <-> second_of r = Some s.
Proof.
  unfold bucket, converts, second_of.
  destruct (to_datetime_s parse_str (cell "timestamp" r)) as [ns|]; simpl.
  - split.
    + intros [H _]. simplify_eq. f_equal.
      by apply Z.mul_cancel_r in H.
    + intros H. simplify_eq. eauto.
  - split; [by intros [_ [? ?]]|done].
Qed.

Lemma bucket_count df s :
  length (filter (fun r => bucket r = VTime (s * ns_per_s)) (retained df)) =
  length (filter (fun r => second_of r = Some s) (rows df)).
Proof.
  unfold retained. rewrite list_filter_filter. f_equal.
  apply list_filter_iff. intros r. apply bucket_second.
Qed.

(** ** The bar chart *)









Lemma bars_dashboard df :
  bars (dashboard df) =
  [((avg_sizes df).*1, (avg_sizes df).*2,
    (fun m => format_1f m +:+ " bytes") <$> (avg_sizes df).*2)].
Proof. unfold dashboard. by destruct (decide ("source" ∈ columns df)). Qed.

(** ** The top-talkers table *)

Lemma dataframes_dashboard df :
  dataframes (dashboard df) =
  if decide ("source" ∈ columns df)
  then [mkTable2 "Source IP" "Packet Count"
          (take 10 (value_counts (cell "source" <$> retained df)))]
  else [].
Proof. unfold dashboard. by destruct (decide ("source" ∈ columns df)). Qed.

End RendererFacts.

(** * The contract of the renderer *)

Section Contract.
Variable parse_str : string -> option Z.


(** C4. For an empty table the renderer shows the "no data" notice after
    the title and returns: nothing is raised, no widget is drawn, and the
    table is left as it was. *)
Theorem empty_table_notice (df : DataFrame) :
  df_empty df = true ->
  render parse_str df = (inr tt, mkWorld df [st_markdown msg_title; st_warning msg_no_data])
  /\ existsb is_widget (screen (render parse_str df).2) = false
  /\ existsb is_error (screen (render parse_str df).2) = false
  /\ frame (render parse_str df).2 = df.
Proof.
  intros H. by rewrite render_empty.
Qed.

(** C3. When the conversion step raises on a non-empty table, the renderer
    reports the error and returns: the screen holds the title and the error
    message only, so no widget and no success acknowledgment, and nothing
    is raised to the caller.  A missing [timestamp] column is such a case,
    with the message of the [KeyError]. *)
Theorem conversion_error_reported (df : DataFrame) :
  df_empty df = false ->
  (forall e w,
     convert_timestamps parse_str (mkWorld df [st_markdown msg_title]) = (inl e, w) ->
     render parse_str df =
       (inr tt, mkWorld df [st_markdown msg_title; st_error (msg_failed +:+ exn_str e)])
     /\ existsb is_widget (screen (render parse_str df).2) = false
     /\ existsb is_success (screen (render parse_str df).2) = false)
  /\ (("timestamp" ∉ columns df) ->
      render parse_str df =
        (inr tt, mkWorld df [st_markdown msg_title;
                             st_error "Timestamp conversion failed: 'timestamp'"])).
Proof.
  intros He. split.
  - intros e w Hc. rewrite (render_conversion_failed _ _ _ _ He Hc).
    apply convert_timestamps_inv in Hc as (_ & _ & ->). done.
  - intros Hts.
    by rewrite (render_conversion_failed _ _ _ _ He
                  (convert_timestamps_raises _ _ _ Hts)).
Qed.

(** C1, as the code has it.  When every row of a non-empty table with
    [timestamp], [protocol] and [size] columns fails the conversion, no
    error is reported: all rows are dropped, the three charts (and the
    top-talkers table when there is a [source] column) are drawn from the
    empty table, and the success acknowledgment follows. *)
Theorem all_rows_unparsable (df : DataFrame) :
  df_empty df = false ->
  "timestamp" ∈ columns df ->
  "protocol" ∈ columns df ->
  "size" ∈ columns df ->
  Forall (fun r => to_datetime_s parse_str (cell "timestamp" r) = None) (rows df) ->
  render parse_str df =
    (inr tt,
     mkWorld {| columns := columns df; rows := [] |}
       ([st_markdown msg_title;
         st_subheader msg_h1; protocol_chart [];
         st_subheader msg_h2; timeline_chart [];
         st_subheader msg_h3; size_chart []]
        ++ (if decide ("source" ∈ columns df)
            then [st_subheader msg_h4; top_sources_table []]
            else [])
        ++ [st_success msg_done]))
  /\ error_path (screen (render parse_str df).2) = false.
Proof.
  intros He Hts Hp Hs Hall.
  pose proof (retained_none parse_str df Hall) as Hr.
  assert (render parse_str df = (inr tt, mkWorld (coerced parse_str df) (dashboard parse_str df))) as ->.
  { apply render_ok; try done. unfold numeric_sizes. rewrite Hr. constructor. }
  unfold coerced, dashboard, avg_sizes, group_averages.
    rewrite (surviving_none _ _ Hr), Hr.
  split; [done|]. by destruct (decide ("source" ∈ columns df)).
Qed.

(** C2. On a non-empty table with [timestamp], [protocol] and numeric
    [size] columns the pass completes.  The rows left in the table are the
    rows whose timestamp converts, in order, each with its converted
    timestamp; a row whose timestamp fails is not among the retained rows,
    a row whose timestamp converts is.  Every widget is computed from the
    retained rows alone (two tables with the same columns and the same
    retained rows give the same screen), and no error is shown. *)
Theorem failed_rows_discarded (df : DataFrame) :
  df_empty df = false ->
  "timestamp" ∈ columns df ->
  "protocol" ∈ columns df ->
  "size" ∈ columns df ->
  numeric_sizes parse_str df ->
  (render parse_str df).1 = inr tt
  /\ rows (frame (render parse_str df).2) = surviving parse_str df
  /\ Forall2 (converted parse_str) (retained parse_str df) (surviving parse_str df)
  /\ (forall r, r ∈ rows df ->
        to_datetime_s parse_str (cell "timestamp" r) = None -> r ∉ retained parse_str df)
  /\ (forall r, r ∈ rows df -> converts parse_str r -> r ∈ retained parse_str df)
  /\ screen (render parse_str df).2 = dashboard parse_str df
  /\ existsb is_error (screen (render parse_str df).2) = false
  /\ (forall df', df_empty df' = false -> columns df' = columns df ->
        retained parse_str df' = retained parse_str df ->
        screen (render parse_str df').2 = screen (render parse_str df).2).
Proof.
  intros He Hts Hp Hs Hn.
  rewrite (render_ok _ _ He Hts Hp Hs Hn). simpl.
  split_and!; try done.
  - apply surviving_retained.
  - intros r _ Hr Hin. apply list_elem_of_filter in Hin as [[ns Hc] _].
    unfold converts in *. congruence.
  - intros r Hin Hc. by apply list_elem_of_filter.
  - apply dashboard_quiet.
  - intros df' He' Hcols Hret.
    rewrite render_ok; try done; try (by rewrite Hcols).
    + simpl. unfold dashboard, avg_sizes. by rewrite Hcols, Hret.
    + unfold numeric_sizes. by rewrite Hret.
Qed.

(** C9. The table is touched by the conversion step alone.  The column
    labels never change.  A call on an empty table, or on a table without
    a [timestamp] column, leaves the table exactly as it was.  Any other
    call leaves, in order, exactly the rows whose timestamp converts: a
    row is removed if and only if its timestamp fails the conversion, and
    each row left is the original row with its [timestamp] cell replaced
    by the converted value.  So the [protocol], [size] and [source] cells
    of a surviving row (every cell but [timestamp]) are as before, no row
    is added, and the number of rows removed is the number of rows whose
    timestamp fails. *)
Theorem only_timestamps_change (df : DataFrame) :
  columns (frame (render parse_str df).2) = columns df
  /\ (df_empty df = true \/ ("timestamp" ∉ columns df) ->
      frame (render parse_str df).2 = df)
  /\ (df_empty df = false -> "timestamp" ∈ columns df ->
      Forall2 (fun r r' =>
                 exists ns,
                   to_datetime_s parse_str (cell "timestamp" r) = Some ns
                   /\ r' = <["timestamp" := VTime ns]> r)
              (filter (fun r => is_Some (to_datetime_s parse_str (cell "timestamp" r)))
                      (rows df))
              (rows (frame (render parse_str df).2))
      /\ (length (rows (frame (render parse_str df).2))
          + length (filter (fun r => to_datetime_s parse_str (cell "timestamp" r) = None)
                           (rows df)))%nat
         = length (rows df))
  /\ (exists kept,
        kept `sublist_of` rows df /\
        Forall2 (fun r r' =>
                   (r' = r \/ converted parse_str r r')
                   /\ cell "protocol" r' = cell "protocol" r
                   /\ cell "size" r' = cell "size" r
                   /\ cell "source" r' = cell "source" r
                   /\ forall c, c <> "timestamp" -> r' !! c = r !! c)
                kept (rows (frame (render parse_str df).2)))
  /\ (length (rows (frame (render parse_str df).2)) <= length (rows df))%nat.
Proof.
  split_and!.
  - by destruct (render_frame parse_str df) as [->|[Hts ->]].
  - intros [He|Hts].
    + by rewrite render_empty.
    + destruct (df_empty df) eqn:He; [by rewrite render_empty|].
      by rewrite (render_conversion_failed parse_str df _ _ He
                    (convert_timestamps_raises parse_str df _ Hts)).
  - intros He Hts. rewrite render_frame_converted by done. simpl. split.
    + apply surviving_retained.
    + rewrite surviving_length. apply retained_dropped.
  - destruct (render_frame parse_str df) as [->|[Hts ->]].
    + exists (rows df). split; [done|].
      apply Forall_Forall2_diag, Forall_forall. intros r _. auto.
    + exists (retained parse_str df). split; [apply sublist_filter|].
      eapply Forall2_impl; [apply surviving_retained|].
      intros r r' (ns & Hns & ->).
      rewrite !cell_insert_ne by done.
      split_and!; try done.
      * right. by exists ns.
      * intros c Hc. by rewrite lookup_insert_ne.
  - destruct (render_frame parse_str df) as [->|[Hts ->]]; [done|].
    simpl. rewrite surviving_length. apply length_filter.
Qed.

(** C8. On a non-empty table with [timestamp] and [protocol] columns the
    pie chart is drawn once, from a table with one line per distinct
    protocol value of the retained rows: a value is listed exactly when
    some retained row carries it, with the number of retained rows that
    carry it.  When all rows share one protocol value and at least one row
    is retained, there is a single line whose count is the number of
    retained rows; that is the number of rows when every timestamp
    converts. *)
Theorem protocol_distribution_counts (df : DataFrame) :
  df_empty df = false ->
  "timestamp" ∈ columns df ->
  "protocol" ∈ columns df ->
  exists cnts,
    pie_tables (screen (render parse_str df).2) = [mkTable2 "Protocol" "Count" cnts]
    /\ NoDup cnts.*1
    /\ (forall k n,
          (k, n) ∈ cnts <->
          notna k /\ (0 < n)%nat /\
          n = length (filter (fun r => cell "protocol" r = k) (retained parse_str df)))
    /\ (forall p,
          notna p ->
          Forall (fun r => cell "protocol" r = p) (rows df) ->
          (retained parse_str df <> [] ->
             cnts = [(p, length (retained parse_str df))])
          /\ (Forall (converts parse_str) (rows df) ->
                cnts = [(p, length (rows df))])).
Proof.
  intros He Hts Hp.
  exists (value_counts (cell "protocol" <$> retained parse_str df)).
  split_and!.
  - by apply charts_on_screen.
  - apply value_counts_NoDup.
  - intros k n. rewrite value_counts_spec, elem_of_fmap_filter.
    split; intros (? & ? & ?); subst; done.
  - intros p Hnp Hall.
    assert (Forall (fun r => cell "protocol" r = p) (retained parse_str df)) as Hall'.
    { apply Forall_forall. intros r [_ Hr]%list_elem_of_filter.
      rewrite Forall_forall in Hall. by apply Hall. }
    split.
    + intros Hne. by apply value_counts_single.
    + intros Hconv. rewrite retained_all in * by done.
      apply value_counts_single; try done.
      unfold df_empty in He. apply orb_false_iff in He as [_ He].
      by apply bool_decide_eq_false in He.
Qed.

(** C10, as the code has it.  On a non-empty table with [timestamp] and
    [protocol] columns, the counts of the line chart add up to the number
    of rows left in the table, and the counts of the pie chart add up to
    the number of those rows that carry a protocol value: a row without
    one is on no slice.  So the two sums are equal, and equal to the number
    of surviving rows, when every retained row has a protocol value. *)
Theorem counts_add_up (df : DataFrame) :
  df_empty df = false ->
  "timestamp" ∈ columns df ->
  "protocol" ∈ columns df ->
  exists pie line,
    pie_tables (screen (render parse_str df).2) = [pie]
    /\ line_tables (screen (render parse_str df).2) = [line]
    /\ total (body line) = length (rows (frame (render parse_str df).2))
    /\ total (body pie) =
         length (filter (fun r => notna (cell "protocol" r)) (retained parse_str df))
    /\ total (body line) =
         (total (body pie)
          + length (filter (fun r => cell "protocol" r = VNull)
                           (retained parse_str df)))%nat
    /\ (Forall (fun r => notna (cell "protocol" r)) (retained parse_str df) ->
          total (body pie) = length (rows (frame (render parse_str df).2))
          /\ total (body pie) = total (body line)).
Proof.
  intros He Hts Hp.
  destruct (charts_on_screen parse_str df He Hts Hp) as (Hpie & Hline & Hrows).
  assert (total (groupby_size (bucket parse_str <$> retained parse_str df))
          = length (retained parse_str df)) as Hsum.
  { rewrite groupby_size_total, filter_all; [done|].
    apply Forall_forall. intros r [Hc _]%list_elem_of_filter.
    by apply bucket_notna. }
  eexists _, _. split_and!; [exact Hpie|exact Hline|..]; simpl.
  - by rewrite Hrows.
  - apply value_counts_total.
  - rewrite Hsum, value_counts_total. by rewrite notna_or_null.
  - intros Hall. rewrite Hrows, value_counts_total, groupby_size_total.
    rewrite !filter_all; try done.
    apply Forall_forall. intros r [Hc _]%list_elem_of_filter.
    by apply bucket_notna.
Qed.

(** C6. On a non-empty table with [timestamp] and [protocol] columns the
    line chart is drawn once.  Each converted timestamp is floored to its
    whole second; the chart has one point per second that some row falls
    in, carrying the number of rows of that second, and the points are in
    increasing time order.  For timestamps 0, 0 and 1 (in any row order)
    the points are second 0 with count 2 and second 1 with count 1. *)
Theorem packets_per_second_buckets (df : DataFrame) :
  df_empty df = false ->
  "timestamp" ∈ columns df ->
  "protocol" ∈ columns df ->
  exists pts,
    line_tables (screen (render parse_str df).2) =
      [mkTable2 "timestamp" "Packet Count" pts]
    /\ StronglySorted value_lt pts.*1
    /\ (forall k n,
          (k, n) ∈ pts <->
          exists s, k = VTime (s * ns_per_s) /\ (0 < n)%nat /\
                    n = length (filter (fun r => second_of parse_str r = Some s) (rows df)))
    /\ (forall r ns,
          r ∈ rows df ->
          to_datetime_s parse_str (cell "timestamp" r) = Some ns ->
          exists s, second_of parse_str r = Some s /\
                    s * ns_per_s <= ns < (s + 1) * ns_per_s)
    /\ (cell "timestamp" <$> rows df ≡ₚ [VInt 0; VInt 0; VInt 1] ->
        pts = [(VTime 0, 2%nat); (VTime ns_per_s, 1%nat)]).
Proof.
  intros He Hts Hp.
  exists (groupby_size (bucket parse_str <$> retained parse_str df)).
  split_and!.
  - by apply charts_on_screen.
  - apply groupby_size_sorted.
  - intros k n. rewrite groupby_size_spec. split.
    + intros (Hk & Hin & ->).
      pose proof Hin as Hpos. apply elem_of_fmap_filter in Hpos.
      apply list_elem_of_fmap in Hin as (r & -> & [Hc _]%list_elem_of_filter).
      destruct Hc as [ns Hns]. exists (ns `div` ns_per_s).
      assert (bucket parse_str r = VTime (ns `div` ns_per_s * ns_per_s)) as Hb
        by (unfold bucket; by rewrite Hns).
      rewrite Hb in *. by rewrite bucket_count in *.
    + intros (s & -> & Hpos & ->). rewrite <- bucket_count in *.
      split_and!; [done| |done]. by apply elem_of_fmap_filter.
  - intros r ns _ Hns. exists (ns `div` ns_per_s).
    unfold second_of. rewrite Hns. split; [done|].
    unfold ns_per_s. pose proof (Z.div_mod ns 1000000000).
    pose proof (Z.mod_pos_bound ns 1000000000). lia.
  - intros Hperm.
    assert (Forall (converts parse_str) (rows df)) as Hall.
    { apply Forall_forall. intros r Hr.
      assert (cell "timestamp" r ∈ [VInt 0; VInt 0; VInt 1]) as Hc.
      { rewrite <- Hperm. apply list_elem_of_fmap. eauto. }
      unfold converts. set_unfold. destruct Hc as [->|[->|[->|[]]]]; by eexists. }
    rewrite retained_all by done.
    unfold bucket.
    rewrite (list_fmap_compose (cell "timestamp")
               (fun v => dt_floor_s (of_datetime (to_datetime_s parse_str v)))).
    by rewrite (groupby_size_perm _ _ (fmap_Permutation _ _ _ Hperm)).
Qed.


(** C5, as the code has it.  On a non-empty table with [timestamp],
    [protocol] and numeric [size] columns, the top-talkers table is drawn
    exactly when the table has a [source] column.  It then has the columns
    "Source IP" and "Packet Count" and lists source addresses of the
    retained rows, each once, with the number of retained rows it sends,
    most frequent first; it has at most 10 lines, an address left out
    means the table is full and no listed address has fewer rows; and with
    15 distinct addresses among the retained rows it has exactly 10
    lines. *)
Theorem top_talkers_table (df : DataFrame) :
  df_empty df = false ->
  "timestamp" ∈ columns df ->
  "protocol" ∈ columns df ->
  "size" ∈ columns df ->
  numeric_sizes parse_str df ->
  (dataframes (screen (render parse_str df).2) <> [] <-> "source" ∈ columns df)
  /\ ("source" ∈ columns df ->
      exists top,
        dataframes (screen (render parse_str df).2) =
          [mkTable2 "Source IP" "Packet Count" top]
        /\ (length top <= 10)%nat
        /\ StronglySorted (fun a b => (b.2 <= a.2)%nat) top
        /\ NoDup top.*1
        /\ (forall a n,
              (a, n) ∈ top ->
              notna a /\ (0 < n)%nat /\
              n = length (filter (fun r => cell "source" r = a) (retained parse_str df)))
        /\ (forall a,
              notna a ->
              (exists r, r ∈ retained parse_str df /\ cell "source" r = a) ->
              a ∉ top.*1 ->
              length top = 10%nat /\
              forall b m, (b, m) ∈ top ->
                (length (filter (fun r => cell "source" r = a) (retained parse_str df))
                 <= m)%nat)
        /\ (forall addrs,
              NoDup addrs ->
              (forall a, a ∈ addrs <->
                         notna a /\
                         exists r, r ∈ retained parse_str df /\ cell "source" r = a) ->
              length top = (10 `min` length addrs)%nat
              /\ (length addrs = 15%nat -> length top = 10%nat))).
Proof.
  intros He Hts Hp Hs Hn.
  rewrite (render_ok _ _ He Hts Hp Hs Hn). cbn [snd screen].
  rewrite dataframes_dashboard.
  destruct (decide ("source" ∈ columns df)) as [Hsrc|Hsrc]; [|done].
  split; [done|]. intros _.
  assert (forall a, a ∈ cell "source" <$> retained parse_str df <->
                    exists r, r ∈ retained parse_str df /\ cell "source" r = a) as Hocc.
  { intros a. rewrite list_elem_of_fmap. naive_solver. }
  eexists. split_and!; [done|..].
  - rewrite length_take. lia.
  - apply top_sorted.
  - apply top_NoDup.
  - intros a n (Ha & Hin & ->)%top_elem_of%value_counts_spec.
    split_and!; [done| |done]. by apply elem_of_fmap_filter.
  - intros a Ha Hin Hout. apply top_cut; [done| |done]. by apply Hocc.
  - intros addrs Hnd Haddrs.
    assert (length (take 10 (value_counts (cell "source" <$> retained parse_str df)))
            = (10 `min` length addrs)%nat) as Hlen.
    { apply top_length; [done|]. intros a. by rewrite Haddrs, Hocc. }
    split; [done|]. intros H15. rewrite Hlen, H15. done.
Qed.

End Contract.



(** * Sample tables *)

Definition sample_columns : list string := ["timestamp"; "protocol"; "size"; "source"].

(** A packet record with all four fields. *)
Definition row (ts proto sz src : value) : gmap string value :=
  <["timestamp" := ts]> (<["protocol" := proto]> (<["size" := sz]> (<["source" := src]> ∅))).

(** A reader of text cells that recognises no text as a time. *)
Definition no_parse : string -> option Z := fun _ => None.

(** Four captured packets, one of them with a timestamp that is not a
    number. *)
Definition sample_mixed : DataFrame :=
  mkDataFrame sample_columns
    [row (VInt 0) (VStr "TCP") (VInt 10) (VStr "10.0.0.1");
     row (VInt 0) (VStr "TCP") (VInt 20) (VStr "10.0.0.2");
     row (VStr "n/a") (VStr "TCP") (VInt 40) (VStr "10.0.0.2");
     row (VInt 1) (VStr "UDP") (VInt 100) (VStr "10.0.0.1")].

Definition sample_unparsable : DataFrame :=
  mkDataFrame sample_columns
    [row (VStr "n/a") (VStr "TCP") (VInt 60) (VStr "10.0.0.1");
     row VNull (VStr "UDP") (VInt 40) (VStr "10.0.0.2")].

Definition sample_no_rows : DataFrame := mkDataFrame sample_columns [].

Definition sample_no_timestamp : DataFrame :=
  mkDataFrame ["protocol"; "size"; "source"]
    [<["protocol" := VStr "TCP"]> (<["size" := VInt 60]> (<["source" := VStr "10.0.0.1"]> ∅))].

Definition sample_seconds : DataFrame :=
  mkDataFrame sample_columns
    [row (VInt 1) (VStr "TCP") (VInt 60) (VStr "10.0.0.1");
     row (VInt 0) (VStr "UDP") (VInt 60) (VStr "10.0.0.1");
     row (VInt 0) (VStr "TCP") (VInt 60) (VStr "10.0.0.2")].


Definition sample_one_protocol : DataFrame :=
  mkDataFrame sample_columns
    [row (VInt 5) (VStr "TCP") (VInt 10) (VStr "10.0.0.1");
     row (VInt 6) (VStr "TCP") (VInt 20) (VStr "10.0.0.1");
     row (VInt 7) (VStr "TCP") (VInt 100) (VStr "10.0.0.2")].

(** Fifteen sources; the first sends two packets. *)
Definition sample_sources : DataFrame :=
  mkDataFrame sample_columns
    (row (VInt 0) (VStr "TCP") (VInt 60) (VStr "10.0.0.1") ::
     ((fun i => row (VInt (Z.of_nat i)) (VStr "TCP") (VInt 60)
                    (VStr ("10.0.0." +:+ string_of_Z (Z.of_nat i)))) <$> seq 1 15)).

(** Fifteen sources, one packet each; the last six packets carry no
    timestamp. *)
Definition sample_sources_dropped : DataFrame :=
  mkDataFrame sample_columns
    ((fun i => row (if (i <=? 9)%nat then VInt (Z.of_nat i) else VNull)
                   (VStr "TCP") (VInt 60)
                   (VStr ("10.0.0." +:+ string_of_Z (Z.of_nat i)))) <$> seq 1 15).

(** Three packets, one of unknown protocol. *)
Definition sample_unknown_protocol : DataFrame :=
  mkDataFrame sample_columns
    [row (VInt 5) (VStr "TCP") (VInt 10) (VStr "10.0.0.1");
     row (VInt 6) VNull (VInt 20) (VStr "10.0.0.1");
     row (VInt 7) (VStr "UDP") (VInt 100) (VStr "10.0.0.2")].

(** Decide a closed statement by evaluation. *)
Ltac by_evaluation :=
  match goal with
  | |- ?P => apply (bool_decide_unpack P); vm_compute; exact I
  end.

(** * The contract on the sample tables *)

(** The empty sample gets the notice and nothing else. *)
Lemma empty_table_notice_sample :
  df_empty sample_no_rows = true
  /\ render no_parse sample_no_rows =
       (inr tt, mkWorld sample_no_rows [st_markdown msg_title; st_warning msg_no_data]).
Proof.
  split; [reflexivity|].
  apply (empty_table_notice no_parse sample_no_rows). reflexivity.
Defined.

(** A table without a [timestamp] column gets the error message. *)
Lemma conversion_error_reported_sample :
  df_empty sample_no_timestamp = false
  /\ ("timestamp" ∉ columns sample_no_timestamp)
  /\ render no_parse sample_no_timestamp =
       (inr tt, mkWorld sample_no_timestamp
                  [st_markdown msg_title;
                   st_error "Timestamp conversion failed: 'timestamp'"]).
Proof.
  assert ("timestamp" ∉ columns sample_no_timestamp) as H by by_evaluation.
  split_and!; [reflexivity|exact H|].
  apply (conversion_error_reported no_parse sample_no_timestamp); [reflexivity|exact H].
Defined.

(** C1 as stated fails: every timestamp of this non-empty table is
    unparsable, yet no error is reported and the widgets are drawn. *)
Lemma unparsable_rows_are_not_an_error :
  df_empty sample_unparsable = false
  /\ Forall (fun r => to_datetime_s no_parse (cell "timestamp" r) = None)
            (rows sample_unparsable)
  /\ error_path (screen (render no_parse sample_unparsable).2) = false
  /\ existsb is_error (screen (render no_parse sample_unparsable).2) = false
  /\ existsb is_widget (screen (render no_parse sample_unparsable).2) = true
  /\ existsb is_success (screen (render no_parse sample_unparsable).2) = true.
Proof.
  split_and!; try reflexivity. by repeat constructor.
Qed.

Lemma all_rows_unparsable_sample :
  error_path (screen (render no_parse sample_unparsable).2) = false
  /\ rows (frame (render no_parse sample_unparsable).2) = [].
Proof.
  assert (df_empty sample_unparsable = false) as He by reflexivity.
  assert ("timestamp" ∈ columns sample_unparsable) as Hts by by_evaluation.
  assert ("protocol" ∈ columns sample_unparsable) as Hp by by_evaluation.
  assert ("size" ∈ columns sample_unparsable) as Hs by by_evaluation.
  assert (Forall (fun r => to_datetime_s no_parse (cell "timestamp" r) = None)
                 (rows sample_unparsable)) as Hall by by_evaluation.
  destruct (all_rows_unparsable no_parse sample_unparsable He Hts Hp Hs Hall)
    as [Hrun Herr].
  split; [exact Herr|]. rewrite Hrun. reflexivity.
Defined.

(** In the mixed sample the row with the text timestamp is dropped and
    the other three are drawn. *)
Lemma failed_rows_discarded_sample :
  (render no_parse sample_mixed).1 = inr tt
  /\ length (rows (frame (render no_parse sample_mixed).2)) = 3%nat
  /\ screen (render no_parse sample_mixed).2 = dashboard no_parse sample_mixed.
Proof.
  assert (df_empty sample_mixed = false) as He by reflexivity.
  assert ("timestamp" ∈ columns sample_mixed) as Hts by by_evaluation.
  assert ("protocol" ∈ columns sample_mixed) as Hp by by_evaluation.
  assert ("size" ∈ columns sample_mixed) as Hs by by_evaluation.
  assert (numeric_sizes no_parse sample_mixed) as Hn
    by (unfold numeric_sizes; by_evaluation).
  destruct (failed_rows_discarded no_parse sample_mixed He Hts Hp Hs Hn)
    as (Hret & Hrows & _ & _ & _ & Hscr & _).
  split_and!; [exact Hret| |exact Hscr].
  rewrite Hrows. reflexivity.
Defined.

(** C5 as stated fails.  The empty sample has a [source] column and gets
    no top-talkers table; and the sample with fifteen distinct sources of
    which six come with unreadable timestamps gets a table of nine lines. *)
Lemma top_talkers_missing_or_short :
  ("source" ∈ columns sample_no_rows
   /\ dataframes (screen (render no_parse sample_no_rows).2) = []
   /\ ~ (dataframes (screen (render no_parse sample_no_rows).2) <> []
         <-> "source" ∈ columns sample_no_rows))
  /\ (length (remove_dups (cell "source" <$> rows sample_sources_dropped)) = 15%nat
      /\ length <$> (body <$> dataframes (screen (render no_parse sample_sources_dropped).2))
         = [9%nat]).
Proof.
  assert ("source" ∈ columns sample_no_rows) as H by by_evaluation.
  split; [|split; reflexivity].
  split_and!; [exact H|reflexivity|].
  intros [_ Hrendered]. by apply Hrendered.
Qed.

(** Fifteen sources with valid timestamps: ten lines, the busiest first. *)
Lemma top_talkers_table_sample :
  exists top,
    dataframes (screen (render no_parse sample_sources).2) =
      [mkTable2 "Source IP" "Packet Count" top]
    /\ length top = 10%nat
    /\ head top = Some (VStr "10.0.0.1", 2%nat).
Proof.
  assert (df_empty sample_sources = false) as He by reflexivity.
  assert ("timestamp" ∈ columns sample_sources) as Hts by by_evaluation.
  assert ("protocol" ∈ columns sample_sources) as Hp by by_evaluation.
  assert ("size" ∈ columns sample_sources) as Hs by by_evaluation.
  assert ("source" ∈ columns sample_sources) as Hsrc by by_evaluation.
  assert (numeric_sizes no_parse sample_sources) as Hn
    by (unfold numeric_sizes; by_evaluation).
  destruct (top_talkers_table no_parse sample_sources He Hts Hp Hs Hn)
    as [_ Htop].
  destruct (Htop Hsrc) as (top & Hdf & _).
  exists top. split; [exact Hdf|].
  assert (Some top =
          body <$> head (dataframes (screen (render no_parse sample_sources).2))) as Heq
    by (rewrite Hdf; reflexivity).
  vm_compute in Heq. injection Heq as ->. split; reflexivity.
Defined.

(** Timestamps 1, 0, 0: two points, second 0 with two rows and second 1
    with one. *)
Lemma packets_per_second_buckets_sample :
  line_tables (screen (render no_parse sample_seconds).2) =
    [mkTable2 "timestamp" "Packet Count" [(VTime 0, 2%nat); (VTime ns_per_s, 1%nat)]].
Proof.
  assert (df_empty sample_seconds = false) as He by reflexivity.
  assert ("timestamp" ∈ columns sample_seconds) as Hts by by_evaluation.
  assert ("protocol" ∈ columns sample_seconds) as Hp by by_evaluation.
  destruct (packets_per_second_buckets no_parse sample_seconds He Hts Hp)
    as (pts & Hline & _ & _ & _ & Hex).
  rewrite Hline, Hex; [reflexivity|].
  by_evaluation.
Defined.


(** Three TCP packets: one slice, of count three. *)
Lemma protocol_distribution_counts_sample :
  pie_tables (screen (render no_parse sample_one_protocol).2) =
    [mkTable2 "Protocol" "Count" [(VStr "TCP", 3%nat)]].
Proof.
  assert (df_empty sample_one_protocol = false) as He by reflexivity.
  assert ("timestamp" ∈ columns sample_one_protocol) as Hts by by_evaluation.
  assert ("protocol" ∈ columns sample_one_protocol) as Hp by by_evaluation.
  destruct (protocol_distribution_counts no_parse sample_one_protocol He Hts Hp)
    as (cnts & Hpie & _ & _ & Hone).
  rewrite Hpie.
  destruct (Hone (VStr "TCP") I) as [_ Hall]; [by_evaluation|].
  rewrite Hall; [reflexivity|by_evaluation].
Defined.

(** In the mixed sample both charts count the three retained rows. *)
Lemma counts_add_up_sample :
  exists pie line,
    pie_tables (screen (render no_parse sample_mixed).2) = [pie]
    /\ line_tables (screen (render no_parse sample_mixed).2) = [line]
    /\ total (body pie) = 3%nat
    /\ total (body line) = 3%nat.
Proof.
  assert (df_empty sample_mixed = false) as He by reflexivity.
  assert ("timestamp" ∈ columns sample_mixed) as Hts by by_evaluation.
  assert ("protocol" ∈ columns sample_mixed) as Hp by by_evaluation.
  destruct (counts_add_up no_parse sample_mixed He Hts Hp)
    as (pie & line & Hpie & Hline & Hl & _ & _ & Hall).
  exists pie, line.
  destruct Hall as [Hp3 Heq]; [by_evaluation|].
  split_and!; [exact Hpie|exact Hline| |].
  - rewrite Hp3. reflexivity.
  - rewrite Hl. reflexivity.
Defined.

(** C10 as stated fails.  In the sample with one packet of unknown
    protocol every timestamp converts and the call completes; the three
    rows survive and the line chart counts three, but the pie chart counts
    two: the row without a protocol value is on no slice. *)
Lemma pie_skips_unknown_protocol :
  df_empty sample_unknown_protocol = false
  /\ Forall (converts no_parse) (rows sample_unknown_protocol)
  /\ (render no_parse sample_unknown_protocol).1 = inr tt
  /\ length (rows (frame (render no_parse sample_unknown_protocol).2)) = 3%nat
  /\ total <$> (body <$> pie_tables (screen (render no_parse sample_unknown_protocol).2))
     = [2%nat]
  /\ total <$> (body <$> line_tables (screen (render no_parse sample_unknown_protocol).2))
     = [3%nat].
Proof.
  split_and!; try reflexivity.
  repeat (apply Forall_cons_2; [by eexists|]). apply Forall_nil_2.
Qed.

(** A second call on the table left by the first one draws the same
    screen: the converted timestamps pass through the conversion. *)
Example second_pass_same_screen :
  let first := render no_parse sample_mixed in
  let second := render no_parse (frame first.2) in
  screen second.2 = screen first.2 /\ frame second.2 = frame first.2.
Proof. split; reflexivity. Qed.

(** * Beyond the happy path *)

Definition is_warning (c : st_call) : bool :=
  match c with st_warning _ => true | _ => false end.

(** ** Means that fail *)

Lemma numeric_cells_inv xs zs :
  numeric_cells xs = inr zs -> Forall (fun v => numeric v) xs.
Proof.
  revert zs. induction xs as [|v xs IH]; intros zs H; [constructor|].
  destruct v; simpl in H; try done.
  - destruct (numeric_cells xs) eqn:E; [done|]. constructor; [done|by eapply IH].
  - constructor; [done|by eapply IH].
Qed.

Lemma numeric_cells_error xs e : numeric_cells xs = inl e -> e = TypeError.
Proof.
  induction xs as [|v xs IH]; intros H; [done|].
  destruct v; simpl in H; try (by simplify_eq); auto.
  destruct (numeric_cells xs); [|done]. simplify_eq. auto.
Qed.

Lemma group_means_inv gs ms :
  group_means gs = inr ms -> Forall (fun g => Forall (fun v => numeric v) g.2) gs.
Proof.
  revert ms. induction gs as [|[k xs] gs IH]; intros ms H; [constructor|].
  simpl in H. unfold mean in H.
  destruct (numeric_cells xs) as [e|zs] eqn:E; [done|].
  destruct (group_means gs) as [e|ms'] eqn:E'.
  { by destruct zs. }
  constructor; [by eapply numeric_cells_inv|by eapply IH].
Qed.

Lemma group_means_error gs e : group_means gs = inl e -> e = TypeError.
Proof.
  induction gs as [|[k xs] gs IH]; intros H; [done|].
  simpl in H. unfold mean in H.
  destruct (numeric_cells xs) as [e'|zs] eqn:E.
  { simplify_eq. by eapply numeric_cells_error. }
  destruct (group_means gs) as [e'|ms'].
  - destruct zs; simplify_eq; auto.
  - by destruct zs.
Qed.

(** One cell that is neither a number nor missing, in a row that has a
    key, makes the whole aggregation fail. *)
Lemma groupby_mean_raises {R} (f g : R -> value) (l : list R) r :
  r ∈ l -> notna (f r) -> numeric (g r) = false ->
  groupby_mean (f <$> l) (g <$> l) = inl TypeError.
Proof.
  intros Hr Hk Hbad. unfold groupby_mean.
  destruct (group_means _) as [e|ms] eqn:E.
  { f_equal. by eapply group_means_error. }
  apply group_means_inv in E. rewrite Forall_forall in E.
  assert ((f r, g <$> filter (fun r' => f r' = f r) l) ∈ groupby (f <$> l) (g <$> l)) as Hin.
  { apply groupby_spec. split_and!; [done| |done]. apply list_elem_of_fmap; eauto. }
  specialize (E _ Hin). simpl in E. rewrite Forall_forall in E.
  assert (numeric (g r)) as Hn.
  { apply E. apply list_elem_of_fmap. exists r. split; [done|].
    by apply list_elem_of_filter. }
  rewrite Hbad in Hn. done.
Qed.

Section Paths.
Variable parse_str : string -> option Z.

(** The screen up to the point where the sizes are read. *)
Definition two_charts (df : DataFrame) : list st_call :=
  [st_markdown msg_title;
   st_subheader msg_h1; protocol_chart (cell "protocol" <$> retained parse_str df);
   st_subheader msg_h2; timeline_chart (bucket parse_str <$> retained parse_str df);
   st_subheader msg_h3].

Lemma render_no_protocol df :
  df_empty df = false ->
  "timestamp" ∈ columns df ->
  "protocol" ∉ columns df ->
  render parse_str df =
    (inl (KeyError "protocol"),
     mkWorld (coerced parse_str df) [st_markdown msg_title; st_subheader msg_h1]).
Proof.
  intros He Hts Hp.
  unfold render, create_visualization, bind, st, get_frame, try_. simpl.
  rewrite He. simpl. rewrite convert_timestamps_ok by done.
  unfold protocol_distribution, packets_per_second, average_packet_size,
    top_talkers, bind, st, get_frame, lift, getitem, groupby_getitem, ret.
  by io_steps.
Qed.

Lemma render_no_size df :
  df_empty df = false ->
  "timestamp" ∈ columns df ->
  "protocol" ∈ columns df ->
  "size" ∉ columns df ->
  render parse_str df =
    (inl (KeyError "Column not found: size"),
     mkWorld (coerced parse_str df) (two_charts df)).
Proof.
  intros He Hts Hp Hs.
  unfold render, create_visualization, bind, st, get_frame, try_. simpl.
  rewrite He. simpl. rewrite convert_timestamps_ok by done.
  unfold protocol_distribution, packets_per_second, average_packet_size,
    top_talkers, bind, st, get_frame, lift, getitem, groupby_getitem, ret.
  io_steps. unfold two_charts.
  rewrite surviving_buckets. by rewrite !surviving_cells by done.
Qed.

Lemma render_bad_mean df e :
  df_empty df = false ->
  "timestamp" ∈ columns df ->
  "protocol" ∈ columns df ->
  "size" ∈ columns df ->
  groupby_mean (cell "protocol" <$> retained parse_str df)
               (cell "size" <$> retained parse_str df) = inl e ->
  render parse_str df = (inl e, mkWorld (coerced parse_str df) (two_charts df)).
Proof.
  intros He Hts Hp Hs Hm.
  rewrite <- !(surviving_cells parse_str) in Hm by done.
  unfold render, create_visualization, bind, st, get_frame, try_. simpl.
  rewrite He. simpl. rewrite convert_timestamps_ok by done.
  unfold protocol_distribution, packets_per_second, average_packet_size,
    top_talkers, bind, st, get_frame, lift, getitem, groupby_getitem, ret.
  io_steps. rewrite Hm. simpl. unfold two_charts.
  rewrite surviving_buckets. by rewrite !surviving_cells by done.
Qed.

End Paths.

Section TableAfterwards.
Variable parse_str : string -> option Z.

(** Every surviving row holds a [Timestamp]. *)
Lemma surviving_timestamps df :
  Forall (fun r => exists ns, r !! "timestamp" = Some (VTime ns)) (surviving parse_str df).
Proof.
  unfold surviving. induction (rows df) as [|r rs IH]; csimpl; [constructor|].
  unfold keep at 1.
  destruct (to_datetime_s parse_str (cell "timestamp" r)) as [ns|]; csimpl; [|done].
  constructor; [|done]. exists ns. by rewrite lookup_insert_eq.
Qed.

Lemma keep_timestamp r ns :
  r !! "timestamp" = Some (VTime ns) -> keep parse_str r = Some r.
Proof.
  intros H. unfold keep, cell. rewrite H. simpl. f_equal. by apply insert_id.
Qed.

Lemma omap_fixed {A} (h : A -> option A) (l : list A) :
  Forall (fun x => h x = Some x) l -> omap h l = l.
Proof. induction 1 as [|x l Hx Hl IH]; csimpl; [done|]. by rewrite Hx, IH. Qed.

(** Converting a converted table changes nothing. *)
Lemma surviving_coerced df :
  surviving parse_str (coerced parse_str df) = surviving parse_str df.
Proof.
  unfold surviving at 1. simpl. apply omap_fixed.
  eapply Forall_impl; [apply surviving_timestamps|].
  intros r [ns Hns]. by eapply keep_timestamp.
Qed.

Lemma retained_coerced df :
  retained parse_str (coerced parse_str df) = surviving parse_str df.
Proof.
  unfold retained. simpl. apply filter_all.
  eapply Forall_impl; [apply surviving_timestamps|].
  intros r [ns Hns]. unfold converts, cell. rewrite Hns. by eexists.
Qed.

Lemma coerced_coerced df :
  coerced parse_str (coerced parse_str df) = coerced parse_str df.
Proof. unfold coerced at 1 3. simpl. by rewrite surviving_coerced. Qed.

Lemma surviving_bucket df :
  bucket parse_str <$> surviving parse_str df = bucket parse_str <$> retained parse_str df.
Proof.
  rewrite <- surviving_buckets.
  pose proof (surviving_timestamps df) as H.
  induction H as [|r rs [ns Hns] Hrs IH]; csimpl; [done|].
  rewrite IH. f_equal. unfold bucket, cell. by rewrite Hns.
Qed.

Lemma dashboard_coerced df :
  dashboard parse_str (coerced parse_str df) = dashboard parse_str df.
Proof.
  unfold dashboard, avg_sizes. rewrite retained_coerced. simpl.
  rewrite surviving_bucket. by rewrite !surviving_cells by done.
Qed.

End TableAfterwards.

Section Outcomes.
Variable parse_str : string -> option Z.

(** The four ways a call can end. *)
Lemma render_cases df :
  (df_empty df = true /\
   render parse_str df =
     (inr tt, mkWorld df [st_markdown msg_title; st_warning msg_no_data]))
  \/ (df_empty df = false /\ ("timestamp" ∉ columns df) /\
      render parse_str df =
        (inr tt, mkWorld df [st_markdown msg_title;
                             st_error "Timestamp conversion failed: 'timestamp'"]))
  \/ (df_empty df = false /\ "timestamp" ∈ columns df /\
      exists e scr,
        render parse_str df = (inl e, mkWorld (coerced parse_str df) scr) /\
        (scr = [st_markdown msg_title; st_subheader msg_h1] \/
         scr = two_charts parse_str df))
  \/ (df_empty df = false /\ "timestamp" ∈ columns df /\
      exists avg_size tail,
        render parse_str df =
          (inr tt,
           mkWorld (coerced parse_str df)
             (two_charts parse_str df ++ size_chart avg_size :: tail
              ++ [st_success msg_done])) /\
        (tail = [] \/ exists t, tail = [st_subheader msg_h4; st_dataframe t])).
Proof.
  destruct (df_empty df) eqn:He.
  { left. split; [done|]. by apply render_empty. }
  right. destruct (decide ("timestamp" ∈ columns df)) as [Hts|Hts]; last first.
  { left. split_and!; [done..|].
    by rewrite (render_conversion_failed _ _ _ _ He
                  (convert_timestamps_raises _ _ _ Hts)). }
  right. destruct (decide ("protocol" ∈ columns df)) as [Hp|Hp]; last first.
  { left. split_and!; [done..|]. eexists _, _. split; [by apply render_no_protocol|].
    by left. }
  destruct (decide ("size" ∈ columns df)) as [Hs|Hs]; last first.
  { left. split_and!; [done..|]. eexists _, _. split; [by apply render_no_size|].
    by right. }
  destruct (groupby_mean (cell "protocol" <$> retained parse_str df)
                         (cell "size" <$> retained parse_str df)) as [e|avg] eqn:Hm.
  { left. split_and!; [done..|]. eexists _, _. split; [by apply render_bad_mean|].
    by right. }
  right. split_and!; [done..|].
  rewrite <- !(surviving_cells parse_str) in Hm by done.
  rewrite (render_widgets _ _ _ He Hts Hp Hs Hm).
  rewrite surviving_buckets. rewrite !surviving_cells by done.
  destruct (decide ("source" ∈ columns df)).
  - eexists avg, _. split; [reflexivity|]. right. by eexists.
  - exists avg, []. split; [reflexivity|]. by left.
Qed.

(** X6. On every table and every path: the title comes first; a warning
    or an error message on the screen means a normal return with no widget
    and no success message, on an untouched table; the success message is
    there exactly when a non-empty table with a [timestamp] column was
    rendered to the end, and then it is the last call; an exception that
    leaves the function is reported nowhere on the screen and finds the
    table already converted. *)
Theorem screen_discipline (df : DataFrame) :
  head (screen (render parse_str df).2) = Some (st_markdown msg_title)
  /\ (existsb is_warning (screen (render parse_str df).2)
      || existsb is_error (screen (render parse_str df).2) = true ->
      (render parse_str df).1 = inr tt
      /\ existsb is_widget (screen (render parse_str df).2) = false
      /\ existsb is_success (screen (render parse_str df).2) = false
      /\ frame (render parse_str df).2 = df)
  /\ (existsb is_success (screen (render parse_str df).2) = true <->
      (render parse_str df).1 = inr tt /\ df_empty df = false /\
      "timestamp" ∈ columns df)
  /\ (existsb is_success (screen (render parse_str df).2) = true ->
      last (screen (render parse_str df).2) = Some (st_success msg_done))
  /\ (forall e,
        (render parse_str df).1 = inl e ->
        existsb is_error (screen (render parse_str df).2) = false
        /\ existsb is_warning (screen (render parse_str df).2) = false
        /\ existsb is_success (screen (render parse_str df).2) = false
        /\ frame (render parse_str df).2 = coerced parse_str df).
Proof.
  destruct (render_cases df)
    as [[He ->]|[(He & Hts & ->)|[(He & Hts & e & scr & -> & Hscr)
       |(He & Hts & avg & tail & -> & Htail)]]]; cbn [fst snd screen frame].
  - split_and!; try done. split; [done|]. intros (_ & ? & _). congruence.
  - split_and!; try done. split; [done|]. by intros (_ & _ & ?).
  - destruct Hscr as [-> | ->]; split_and!; try done;
      (split; [done|]; by intros (? & _)).
  - destruct Htail as [-> | [t ->]]; split_and!; try done.
Qed.

End Outcomes.

Section MoreContract.
Variable parse_str : string -> option Z.

(** X1. A non-empty table with a [timestamp] column but no [protocol]
    column: the [KeyError] of the first widget is not caught.  The caller
    gets the exception; the screen holds the title and the first
    subheader only, with no chart and no message of any kind, and the
    table has already been converted. *)
Theorem missing_protocol_raises (df : DataFrame) :
  df_empty df = false ->
  "timestamp" ∈ columns df ->
  ("protocol" ∉ columns df) ->
  (render parse_str df).1 = inl (KeyError "protocol")
  /\ screen (render parse_str df).2 = [st_markdown msg_title; st_subheader msg_h1]
  /\ frame (render parse_str df).2 = coerced parse_str df
  /\ length (rows (frame (render parse_str df).2)) = length (retained parse_str df).
Proof.
  intros He Hts Hp. rewrite render_no_protocol by done.
  split_and!; try done. apply surviving_length.
Qed.

(** X2. With [timestamp] and [protocol] but no [size] column the pie and
    the line chart are drawn before the third widget fails: selecting
    [size] from the grouped table raises the [KeyError] of the grouping,
    "Column not found: size", which leaves the function.  The screen ends
    with the third subheader, there is no bar chart, no top-talkers table
    and no success message, also when the table has a [source] column. *)
Theorem missing_size_raises (df : DataFrame) :
  df_empty df = false ->
  "timestamp" ∈ columns df ->
  "protocol" ∈ columns df ->
  ("size" ∉ columns df) ->
  (render parse_str df).1 = inl (KeyError "Column not found: size")
  /\ screen (render parse_str df).2 = two_charts parse_str df
  /\ length (pie_tables (screen (render parse_str df).2)) = 1%nat
  /\ length (line_tables (screen (render parse_str df).2)) = 1%nat
  /\ bars (screen (render parse_str df).2) = []
  /\ dataframes (screen (render parse_str df).2) = []
  /\ existsb is_success (screen (render parse_str df).2) = false.
Proof.
  intros He Hts Hp Hs. rewrite render_no_size by done. done.
Qed.

(** X3. One retained row that has a protocol value and a size that is
    neither a number nor missing makes the mean fail: a [TypeError] leaves
    the function after the first two charts, and nothing of the third and
    fourth widget is drawn.  A row dropped by the conversion cannot cause
    this. *)
Theorem text_size_raises (df : DataFrame) (r : gmap string value) :
  df_empty df = false ->
  "timestamp" ∈ columns df ->
  "protocol" ∈ columns df ->
  "size" ∈ columns df ->
  r ∈ retained parse_str df ->
  notna (cell "protocol" r) ->
  numeric (cell "size" r) = false ->
  (render parse_str df).1 = inl TypeError
  /\ screen (render parse_str df).2 = two_charts parse_str df
  /\ bars (screen (render parse_str df).2) = []
  /\ dataframes (screen (render parse_str df).2) = []
  /\ existsb is_success (screen (render parse_str df).2) = false.
Proof.
  intros He Hts Hp Hs Hr Hk Hbad.
  rewrite (render_bad_mean parse_str df TypeError) by
    (try done; by eapply groupby_mean_raises).
  done.
Qed.

(** X4. Rendering the table a complete pass has left behind, with at least
    one row in it, draws the same screen again and leaves the table as it
    is: converted timestamps pass through the conversion unchanged. *)
Theorem second_pass_idempotent (df : DataFrame) :
  df_empty df = false ->
  "timestamp" ∈ columns df ->
  "protocol" ∈ columns df ->
  "size" ∈ columns df ->
  numeric_sizes parse_str df ->
  retained parse_str df <> [] ->
  render parse_str (frame (render parse_str df).2) =
    (inr tt, mkWorld (frame (render parse_str df).2) (screen (render parse_str df).2)).
Proof.
  intros He Hts Hp Hs Hn Hne.
  rewrite (render_ok _ _ He Hts Hp Hs Hn). cbn [snd frame screen].
  rewrite render_ok; try done.
  - by rewrite coerced_coerced, dashboard_coerced.
  - unfold df_empty in *. apply orb_false_iff in He as [Hc _].
    apply orb_false_iff. split; [done|]. apply bool_decide_eq_false.
    simpl. intros Hnil. apply Hne.
    apply length_zero_iff_nil. rewrite <- surviving_length, Hnil. done.
  - unfold numeric_sizes in *. rewrite retained_coerced.
    apply Forall_forall. intros r' Hr'.
    assert (cell "size" r' ∈ cell "size" <$> surviving parse_str df) as Hin
      by (apply list_elem_of_fmap; eauto).
    rewrite surviving_cells in Hin by done.
    apply list_elem_of_fmap in Hin as (r & Heq & Hr). rewrite Heq.
    rewrite Forall_forall in Hn. by apply Hn.
Qed.

(** X5. When no timestamp of a non-empty table converts, the call empties
    the caller's table, so the next call on it shows the "no data" notice
    and nothing else. *)
Theorem second_pass_after_all_dropped (df : DataFrame) :
  df_empty df = false ->
  "timestamp" ∈ columns df ->
  Forall (fun r => to_datetime_s parse_str (cell "timestamp" r) = None) (rows df) ->
  rows (frame (render parse_str df).2) = []
  /\ render parse_str (frame (render parse_str df).2) =
       (inr tt, mkWorld (frame (render parse_str df).2)
                  [st_markdown msg_title; st_warning msg_no_data]).
Proof.
  intros He Hts Hall. rewrite render_frame_converted by done.
  assert (surviving parse_str df = []) as Hnone
    by by apply surviving_none, retained_none.
  split; [done|]. apply render_empty.
  unfold df_empty. simpl. rewrite Hnone.
  apply orb_true_iff. right. by apply bool_decide_eq_true.
Qed.

(** X10. After a call on a non-empty table with a [timestamp] column,
    however the call ends, every row left in the table holds a
    [Timestamp] in that column, and these are the converted values of the
    retained rows in their order. *)
Theorem timestamps_after_call (df : DataFrame) :
  df_empty df = false ->
  "timestamp" ∈ columns df ->
  Forall (fun r => exists ns, r !! "timestamp" = Some (VTime ns))
         (rows (frame (render parse_str df).2))
  /\ cell "timestamp" <$> rows (frame (render parse_str df).2) =
     (fun r => of_datetime (to_datetime_s parse_str (cell "timestamp" r)))
       <$> retained parse_str df.
Proof.
  intros He Hts. rewrite render_frame_converted by done. simpl. split.
  - apply surviving_timestamps.
  - pose proof (surviving_retained parse_str df) as H.
    induction H as [|r r' rs rs' (ns & Hns & ->) _ IH]; csimpl; [done|].
    rewrite cell_insert, Hns, IH. done.
Qed.

End MoreContract.

(** ** Counts, order and missing cells *)


Lemma total_take {K} n (t : list (K * nat)) : (total (take n t) <= total t)%nat.
Proof.
  unfold total. rewrite <- (take_drop n t) at 2.
  rewrite fmap_app, sum_list_with_app. lia.
Qed.

Lemma value_counts_rows_perm {R} (f : R -> value) (l l' : list R) :
  l ≡ₚ l' -> value_counts (f <$> l) ≡ₚ value_counts (f <$> l').
Proof.
  intros Hperm.
  apply NoDup_Permutation.
  - apply (NoDup_fmap_1 fst), value_counts_NoDup.
  - apply (NoDup_fmap_1 fst), value_counts_NoDup.
  - intros [k n]. rewrite !value_counts_spec. by rewrite Hperm.
Qed.

Lemma value_counts_length {R} (f : R -> value) (l : list R) (vals : list value) :
  NoDup vals -> (forall k, k ∈ vals <-> notna k /\ k ∈ f <$> l) ->
  length (value_counts (f <$> l)) = length vals.
Proof.
  intros Hnd Hvals.
  pose proof (top_length f (length (value_counts (f <$> l))) l vals Hnd Hvals) as H1.
  pose proof (top_length f (S (length vals)) l vals Hnd Hvals) as H2.
  rewrite length_take in H1, H2. lia.
Qed.

Lemma groups_at_most_rows {A} (gs : list (value * list A)) :
  Forall (fun g => g.2 <> []) gs ->
  (length gs <= sum_list ((fun g => length g.2) <$> gs))%nat.
Proof.
  induction 1 as [|[k xs] gs Hg Hgs IH]; csimpl; [lia|].
  destruct xs; [done|]. simpl. lia.
Qed.

Section Widgets.
Variable parse_str : string -> option Z.


(** X8. The counts of the top-talkers table never add up to more than the
    number of retained rows that have a source; rows without one are in no
    line.  With at most ten distinct sources the table lists each of them
    and the counts add up to exactly that number. *)
Theorem top_talkers_total (df : DataFrame) :
  df_empty df = false ->
  "timestamp" ∈ columns df ->
  "protocol" ∈ columns df ->
  "size" ∈ columns df ->
  numeric_sizes parse_str df ->
  "source" ∈ columns df ->
  exists top,
    dataframes (screen (render parse_str df).2) =
      [mkTable2 "Source IP" "Packet Count" top]
    /\ (total top <=
        length (filter (fun r => notna (cell "source" r)) (retained parse_str df)))%nat
    /\ (forall addrs,
          NoDup addrs ->
          (forall a, a ∈ addrs <->
                     notna a /\
                     exists r, r ∈ retained parse_str df /\ cell "source" r = a) ->
          (length addrs <= 10)%nat ->
          top.*1 ≡ₚ addrs
          /\ total top =
             length (filter (fun r => notna (cell "source" r)) (retained parse_str df))).
Proof.
  intros He Hts Hp Hs Hn Hsrc.
  rewrite (render_ok _ _ He Hts Hp Hs Hn). cbn [snd screen].
  rewrite dataframes_dashboard, decide_True by done.
  eexists. split_and!; [done| |].
  - rewrite <- value_counts_total. apply total_take.
  - intros addrs Hnd Haddrs Hlen.
    assert (forall a, a ∈ addrs <->
              notna a /\ a ∈ cell "source" <$> retained parse_str df) as Haddrs'.
    { intros a. rewrite Haddrs, list_elem_of_fmap. naive_solver. }
    rewrite take_ge
      by (rewrite (value_counts_length _ _ addrs) by done; done).
    split; [|apply value_counts_total].
    apply NoDup_Permutation; [apply value_counts_NoDup|done|].
    intros a. rewrite Haddrs', list_elem_of_fmap. split.
    + intros ([a' n] & -> & (? & ? & _)%value_counts_spec). done.
    + intros [? ?].
      exists (a, length (filter (fun r => cell "source" r = a) (retained parse_str df))).
      split; [done|]. by apply value_counts_spec.
Qed.

(** X9. The order of the rows does not matter to the line chart: two
    tables with the same columns whose rows are a permutation of each
    other get the same points.  The pie chart gets the same slices,
    possibly in another order.  The bar chart gets the same protocols in
    the same order, and the second call completes when the first does;
    the heights are sums of binary64 numbers taken in row order and are
    not compared. *)
Theorem row_order_irrelevant (df df' : DataFrame) :
  columns df' = columns df ->
  rows df' ≡ₚ rows df ->
  df_empty df = false ->
  "timestamp" ∈ columns df ->
  "protocol" ∈ columns df ->
  line_tables (screen (render parse_str df').2) =
    line_tables (screen (render parse_str df).2)
  /\ (exists p p',
        pie_tables (screen (render parse_str df).2) = [p] /\
        pie_tables (screen (render parse_str df').2) = [p'] /\
        body p' ≡ₚ body p)
  /\ ("size" ∈ columns df -> numeric_sizes parse_str df ->
      (render parse_str df').1 = inr tt /\
      (fun b => b.1.1) <$> bars (screen (render parse_str df').2) =
      (fun b => b.1.1) <$> bars (screen (render parse_str df).2)).
Proof.
  intros Hcols Hrows He Hts Hp.
  assert (df_empty df' = false) as He'.
  { unfold df_empty in *. rewrite Hcols.
    apply orb_false_iff in He as [Hc Hr]. apply orb_false_iff. split; [done|].
    apply bool_decide_eq_false in Hr. apply bool_decide_eq_false.
    intros Hnil. rewrite Hnil in Hrows. by apply Permutation_nil_l in Hrows. }
  assert (retained parse_str df' ≡ₚ retained parse_str df) as Hret
    by (unfold retained; by rewrite Hrows).
  destruct (charts_on_screen parse_str df He Hts Hp) as (Hpie & Hline & _).
  destruct (charts_on_screen parse_str df' He') as (Hpie' & Hline' & _);
    [by rewrite Hcols..|].
  split_and!.
  - rewrite Hline, Hline'. do 2 f_equal.
    apply groupby_size_perm. by rewrite Hret.
  - eexists _, _. split_and!; [exact Hpie|exact Hpie'|]. simpl.
    by apply value_counts_rows_perm.
  - intros Hs Hn.
    assert (numeric_sizes parse_str df') as Hn'
      by (unfold numeric_sizes in *; by rewrite Hret).
    rewrite (render_ok _ _ He Hts Hp Hs Hn).
    rewrite (render_ok _ df' He'); [|by rewrite Hcols..|done].
    cbn [fst snd screen]. split; [done|].
    rewrite !bars_dashboard. unfold avg_sizes. csimpl.
    by rewrite (group_averages_keys_perm _ _ _ _ Hret).
Qed.

(** X11. The slices of the pie chart are listed most frequent first, and
    every slice counts at least one and at most all of the retained
    rows. *)
Theorem pie_most_frequent_first (df : DataFrame) :
  df_empty df = false ->
  "timestamp" ∈ columns df ->
  "protocol" ∈ columns df ->
  exists cnts,
    pie_tables (screen (render parse_str df).2) = [mkTable2 "Protocol" "Count" cnts]
    /\ StronglySorted (fun a b => (b.2 <= a.2)%nat) cnts
    /\ (forall k n, (k, n) ∈ cnts ->
          (1 <= n <= length (retained parse_str df))%nat)
    /\ (length cnts <= length (retained parse_str df))%nat.
Proof.
  intros He Hts Hp.
  destruct (charts_on_screen parse_str df He Hts Hp) as (Hpie & _ & _).
  eexists. split_and!; [exact Hpie|apply value_counts_sorted| |].
  - intros k n (Hk & Hin & ->)%value_counts_spec.
    apply elem_of_fmap_filter in Hin. split; [lia|apply length_filter].
  - rewrite value_counts_perm, length_fmap.
    pose proof (factorize_sizes
                  (zip (cell "protocol" <$> retained parse_str df)
                       (cell "protocol" <$> retained parse_str df))) as Hsz.
    rewrite notna_keys_columns in Hsz.
    pose proof (length_filter (fun r => notna (cell "protocol" r)) (retained parse_str df)).
    assert (Forall (fun g : value * list value => g.2 <> [])
              (factorize (zip (cell "protocol" <$> retained parse_str df)
                              (cell "protocol" <$> retained parse_str df)))) as Hne
      by (apply nonempty_fold; constructor).
    pose proof (groups_at_most_rows _ Hne). lia.
Qed.

End Widgets.

(** * More sample tables *)

Definition sample_no_protocol : DataFrame :=
  mkDataFrame ["timestamp"; "size"; "source"]
    [row (VInt 0) (VStr "TCP") (VInt 10) (VStr "10.0.0.1");
     row (VStr "n/a") (VStr "TCP") (VInt 20) (VStr "10.0.0.2")].

Definition sample_no_size : DataFrame :=
  mkDataFrame ["timestamp"; "protocol"; "source"]
    [row (VInt 0) (VStr "TCP") (VInt 10) (VStr "10.0.0.1");
     row (VInt 1) (VStr "UDP") (VInt 20) (VStr "10.0.0.2")].

Definition oversized : gmap string value :=
  row (VInt 3) (VStr "UDP") (VStr "jumbo") (VStr "10.0.0.2").

Definition sample_text_size : DataFrame :=
  mkDataFrame sample_columns
    [row (VInt 0) (VStr "TCP") (VInt 10) (VStr "10.0.0.1"); oversized].

(** Two TCP packets, one without a size, and a UDP packet without one. *)
Definition sample_missing_sizes : DataFrame :=
  mkDataFrame sample_columns
    [row (VInt 0) (VStr "TCP") (VInt 10) (VStr "10.0.0.1");
     row (VInt 1) (VStr "TCP") VNull (VStr "10.0.0.1");
     row (VInt 2) (VStr "UDP") VNull VNull].

Definition sample_mixed_reordered : DataFrame :=
  mkDataFrame sample_columns (reverse (rows sample_mixed)).

Lemma missing_protocol_raises_sample :
  (render no_parse sample_no_protocol).1 = inl (KeyError "protocol")
  /\ length (rows (frame (render no_parse sample_no_protocol).2)) = 1%nat.
Proof.
  assert (df_empty sample_no_protocol = false) as He by reflexivity.
  assert ("timestamp" ∈ columns sample_no_protocol) as Hts by by_evaluation.
  assert ("protocol" ∉ columns sample_no_protocol) as Hp by by_evaluation.
  destruct (missing_protocol_raises no_parse sample_no_protocol He Hts Hp)
    as (Hout & _ & _ & Hlen).
  split; [exact Hout|]. rewrite Hlen. reflexivity.
Defined.

Lemma missing_size_raises_sample :
  (render no_parse sample_no_size).1 = inl (KeyError "Column not found: size")
  /\ bars (screen (render no_parse sample_no_size).2) = [].
Proof.
  assert (df_empty sample_no_size = false) as He by reflexivity.
  assert ("timestamp" ∈ columns sample_no_size) as Hts by by_evaluation.
  assert ("protocol" ∈ columns sample_no_size) as Hp by by_evaluation.
  assert ("size" ∉ columns sample_no_size) as Hs by by_evaluation.
  destruct (missing_size_raises no_parse sample_no_size He Hts Hp Hs)
    as (Hout & _ & _ & _ & Hbars & _).
  split; [exact Hout|exact Hbars].
Defined.

Lemma text_size_raises_sample :
  (render no_parse sample_text_size).1 = inl TypeError
  /\ existsb is_success (screen (render no_parse sample_text_size).2) = false.
Proof.
  assert (df_empty sample_text_size = false) as He by reflexivity.
  assert ("timestamp" ∈ columns sample_text_size) as Hts by by_evaluation.
  assert ("protocol" ∈ columns sample_text_size) as Hp by by_evaluation.
  assert ("size" ∈ columns sample_text_size) as Hs by by_evaluation.
  assert (oversized ∈ retained no_parse sample_text_size) as Hr by by_evaluation.
  destruct (text_size_raises no_parse sample_text_size oversized He Hts Hp Hs Hr I eq_refl)
    as (Hout & _ & _ & _ & Hsucc).
  split; [exact Hout|exact Hsucc].
Defined.

Lemma second_pass_idempotent_sample :
  screen (render no_parse (frame (render no_parse sample_mixed).2)).2 =
  screen (render no_parse sample_mixed).2.
Proof.
  assert (df_empty sample_mixed = false) as He by reflexivity.
  assert ("timestamp" ∈ columns sample_mixed) as Hts by by_evaluation.
  assert ("protocol" ∈ columns sample_mixed) as Hp by by_evaluation.
  assert ("size" ∈ columns sample_mixed) as Hs by by_evaluation.
  assert (numeric_sizes no_parse sample_mixed) as Hn
    by (unfold numeric_sizes; by_evaluation).
  assert (retained no_parse sample_mixed <> []) as Hne by by_evaluation.
  rewrite (second_pass_idempotent no_parse sample_mixed He Hts Hp Hs Hn Hne).
  reflexivity.
Defined.

Lemma second_pass_after_all_dropped_sample :
  screen (render no_parse (frame (render no_parse sample_unparsable).2)).2 =
  [st_markdown msg_title; st_warning msg_no_data].
Proof.
  assert (df_empty sample_unparsable = false) as He by reflexivity.
  assert ("timestamp" ∈ columns sample_unparsable) as Hts by by_evaluation.
  assert (Forall (fun r => to_datetime_s no_parse (cell "timestamp" r) = None)
                 (rows sample_unparsable)) as Hall by by_evaluation.
  destruct (second_pass_after_all_dropped no_parse sample_unparsable He Hts Hall)
    as [_ Hrun].
  rewrite Hrun. reflexivity.
Defined.

Lemma timestamps_after_call_sample :
  cell "timestamp" <$> rows (frame (render no_parse sample_no_protocol).2) = [VTime 0].
Proof.
  assert (df_empty sample_no_protocol = false) as He by reflexivity.
  assert ("timestamp" ∈ columns sample_no_protocol) as Hts by by_evaluation.
  destruct (timestamps_after_call no_parse sample_no_protocol He Hts) as [_ Hcol].
  rewrite Hcol. reflexivity.
Defined.


Lemma top_talkers_total_sample :
  exists top,
    dataframes (screen (render no_parse sample_missing_sizes).2) =
      [mkTable2 "Source IP" "Packet Count" top]
    /\ (total top <= 2)%nat.
Proof.
  assert (df_empty sample_missing_sizes = false) as He by reflexivity.
  assert ("timestamp" ∈ columns sample_missing_sizes) as Hts by by_evaluation.
  assert ("protocol" ∈ columns sample_missing_sizes) as Hp by by_evaluation.
  assert ("size" ∈ columns sample_missing_sizes) as Hs by by_evaluation.
  assert ("source" ∈ columns sample_missing_sizes) as Hsrc by by_evaluation.
  assert (numeric_sizes no_parse sample_missing_sizes) as Hn
    by (unfold numeric_sizes; by_evaluation).
  destruct (top_talkers_total no_parse sample_missing_sizes He Hts Hp Hs Hn Hsrc)
    as (top & Hdf & Hle & _).
  exists top. split; [exact Hdf|exact Hle].
Defined.

Lemma row_order_irrelevant_sample :
  line_tables (screen (render no_parse sample_mixed_reordered).2) =
  line_tables (screen (render no_parse sample_mixed).2).
Proof.
  assert (df_empty sample_mixed = false) as He by reflexivity.
  assert ("timestamp" ∈ columns sample_mixed) as Hts by by_evaluation.
  assert ("protocol" ∈ columns sample_mixed) as Hp by by_evaluation.
  assert (rows sample_mixed_reordered ≡ₚ rows sample_mixed) as Hperm
    by apply reverse_Permutation.
  destruct (row_order_irrelevant no_parse sample_mixed sample_mixed_reordered
              eq_refl Hperm He Hts Hp) as [Hline _].
  exact Hline.
Defined.

Lemma pie_most_frequent_first_sample :
  exists cnts,
    pie_tables (screen (render no_parse sample_mixed).2) =
      [mkTable2 "Protocol" "Count" cnts]
    /\ (length cnts <= 3)%nat.
Proof.
  assert (df_empty sample_mixed = false) as He by reflexivity.
  assert ("timestamp" ∈ columns sample_mixed) as Hts by by_evaluation.
  assert ("protocol" ∈ columns sample_mixed) as Hp by by_evaluation.
  destruct (pie_most_frequent_first no_parse sample_mixed He Hts Hp)
    as (cnts & Hpie & _ & _ & Hlen).
  exists cnts. split; [exact Hpie|exact Hlen].
Defined.
